(** * BorderStyle (kivy/uix/styles.py): a shallow embedding

    The widget is a record of its Kivy properties and plain attributes,
    every handler [on_<property>] is a function on that record, and an
    assignment to a Kivy property is a store followed, when the value
    really changed, by a synchronous call of the handler.  Python
    exceptions are the [Err] branch of [result]. *)

From Stdlib Require Import ZArith QArith Qabs Lqa Lia String.
From stdpp Require Import base option list strings gmap.

Local Open Scope Z_scope.

(** ** Python 2 numbers

    The file has no [from __future__ import division], so [/] between two
    ints is floor division and any float operand makes the result a float.
    Floats are idealised as exact rationals; Python's [==], [<=], [>]
    compare values, so [1 == 1.0].  A sum of doubles is rounded, so a small
    width can leave [pos + w == pos]; the exact sums below never do.
    Wherever a statement needs two computed sums to differ, that is one of
    its hypotheses and is not derived from the arithmetic. *)

Inductive num : Type :=
  | Int (z : Z)
  | Float (q : Q).

Definition num_val (a : num) : Q :=
  match a with
  | Int z => inject_Z z
  | Float q => q
  end.

Definition py_add (a b : num) : num :=
  match a, b with
  | Int x, Int y => Int (x + y)
  | _, _ => Float (num_val a + num_val b)
  end.

Definition py_sub (a b : num) : num :=
  match a, b with
  | Int x, Int y => Int (x - y)
  | _, _ => Float (num_val a - num_val b)
  end.

Definition py_mul (a b : num) : num :=
  match a, b with
  | Int x, Int y => Int (x * y)
  | _, _ => Float (num_val a * num_val b)
  end.

(** [a / b] for a non-zero [b] (the only divisor in the file is the
    literal [4]). *)
Definition py_div (a b : num) : num :=
  match a, b with
  | Int x, Int y => Int (x / y)
  | _, _ => Float (num_val a / num_val b)
  end.

(** [math.fabs] always returns a float. *)
Definition fabs (a : num) : num := Float (Qabs (num_val a)).

Definition num_eqb (a b : num) : bool := Qeq_bool (num_val a) (num_val b).
Definition num_leb (a b : num) : bool := Qle_bool (num_val a) (num_val b).
Definition num_gtb (a b : num) : bool := negb (num_leb a b).
Definition num_neb (a b : num) : bool := negb (num_eqb a b).

(** Truth value of a number: zero is falsy. *)
Definition num_truthy (a : num) : bool := num_neb a (Int 0).

Fixpoint nums_eqb (l1 l2 : list num) : bool :=
  match l1, l2 with
  | [], [] => true
  | a :: l1', b :: l2' => num_eqb a b && nums_eqb l1' l2'
  | _, _ => false
  end.

(** ** Graphics instructions

    Modelled from the spec: the instruction classes [Line] and [Color] of
    kivy.graphics are not in src.  The spec asks for a stroke-rectangle
    primitive whose geometry and stroke width are updated in place, so an
    instruction is the record of the attributes this file passes to its
    constructor, and an assignment to one of them stores the value. *)

Module Line.

Record t : Type := mk {
  rectangle : list num;
  width : num;
  cap : string;
  joint : string;
  dash_length : Z;
  dash_offset : Z
}.

Definition with_rectangle (r : list num) (l : t) : t :=
  mk r (width l) (cap l) (joint l) (dash_length l) (dash_offset l).

Definition with_width (w : num) (l : t) : t :=
  mk (rectangle l) w (cap l) (joint l) (dash_length l) (dash_offset l).

End Line.

Module Color.

Record t : Type := mk { rgba : list num }.

End Color.

Inductive Instruction : Type :=
  | InstrColor (c : Color.t)
  | InstrLine (l : Line.t).

(** One entry of the class attribute [_dash_styles]. *)
Record DashStyle : Type := mkDash {
  dash_length : Z;
  dash_offset : Z
}.

Definition _dash_styles : gmap string DashStyle :=
  <["dashed" := mkDash 10 5]>
  (<["dotted" := mkDash 1 1]>
  (<["solid" := mkDash 1 0]> ∅)).

Definition CAP : string := "square".
Definition JOINT : string := "miter".

(** ** The widget

    [pos_x], [pos_y], [width], [height] are the host widget's [pos] and
    [size]; the rest are the properties and attributes of lines 57-65 and
    the instance attributes [__init__] adds.  [canvas_after] is the
    instruction list of [self.canvas.after]; [_border_color] and
    [_border_lines] are references (positions) into it, so that an
    assignment through [self._border_lines] changes the instruction that is
    on the canvas.  An attribute that does not exist yet is [None]; the
    class default of [borders], a list holding the two property objects
    themselves, is [None] as well, since no value a caller assigns
    compares equal to it. *)

Record BorderStyle : Type := mkBorderStyle {
  pos_x : num;
  pos_y : num;
  width : num;
  height : num;
  border_width : num;
  border_style : option string;
  border_color : list num;
  borders : option (num * string * list num);
  _border_origin_x : num;
  _border_origin_y : num;
  _border_lines : option nat;
  _border_color : option nat;
  _INIT_STATE : bool;
  cur_dash_style : option DashStyle;
  canvas_after : list Instruction
}.

Definition with_pos_x (v : num) (s : BorderStyle) : BorderStyle :=
  mkBorderStyle v (pos_y s) (width s) (height s) (border_width s)
    (border_style s) (border_color s) (borders s) (_border_origin_x s)
    (_border_origin_y s) (_border_lines s) (_border_color s) (_INIT_STATE s)
    (cur_dash_style s) (canvas_after s).

Definition with_pos_y (v : num) (s : BorderStyle) : BorderStyle :=
  mkBorderStyle (pos_x s) v (width s) (height s) (border_width s)
    (border_style s) (border_color s) (borders s) (_border_origin_x s)
    (_border_origin_y s) (_border_lines s) (_border_color s) (_INIT_STATE s)
    (cur_dash_style s) (canvas_after s).

Definition with_width (v : num) (s : BorderStyle) : BorderStyle :=
  mkBorderStyle (pos_x s) (pos_y s) v (height s) (border_width s)
    (border_style s) (border_color s) (borders s) (_border_origin_x s)
    (_border_origin_y s) (_border_lines s) (_border_color s) (_INIT_STATE s)
    (cur_dash_style s) (canvas_after s).

Definition with_height (v : num) (s : BorderStyle) : BorderStyle :=
  mkBorderStyle (pos_x s) (pos_y s) (width s) v (border_width s)
    (border_style s) (border_color s) (borders s) (_border_origin_x s)
    (_border_origin_y s) (_border_lines s) (_border_color s) (_INIT_STATE s)
    (cur_dash_style s) (canvas_after s).

Definition with_border_width (v : num) (s : BorderStyle) : BorderStyle :=
  mkBorderStyle (pos_x s) (pos_y s) (width s) (height s) v
    (border_style s) (border_color s) (borders s) (_border_origin_x s)
    (_border_origin_y s) (_border_lines s) (_border_color s) (_INIT_STATE s)
    (cur_dash_style s) (canvas_after s).

Definition with_border_style (v : option string) (s : BorderStyle)
  : BorderStyle :=
  mkBorderStyle (pos_x s) (pos_y s) (width s) (height s) (border_width s)
    v (border_color s) (borders s) (_border_origin_x s)
    (_border_origin_y s) (_border_lines s) (_border_color s) (_INIT_STATE s)
    (cur_dash_style s) (canvas_after s).

Definition with_border_color (v : list num) (s : BorderStyle) : BorderStyle :=
  mkBorderStyle (pos_x s) (pos_y s) (width s) (height s) (border_width s)
    (border_style s) v (borders s) (_border_origin_x s)
    (_border_origin_y s) (_border_lines s) (_border_color s) (_INIT_STATE s)
    (cur_dash_style s) (canvas_after s).

Definition with_borders (v : option (num * string * list num))
  (s : BorderStyle) : BorderStyle :=
  mkBorderStyle (pos_x s) (pos_y s) (width s) (height s) (border_width s)
    (border_style s) (border_color s) v (_border_origin_x s)
    (_border_origin_y s) (_border_lines s) (_border_color s) (_INIT_STATE s)
    (cur_dash_style s) (canvas_after s).

Definition with__border_origin_x (v : num) (s : BorderStyle) : BorderStyle :=
  mkBorderStyle (pos_x s) (pos_y s) (width s) (height s) (border_width s)
    (border_style s) (border_color s) (borders s) v
    (_border_origin_y s) (_border_lines s) (_border_color s) (_INIT_STATE s)
    (cur_dash_style s) (canvas_after s).

Definition with__border_origin_y (v : num) (s : BorderStyle) : BorderStyle :=
  mkBorderStyle (pos_x s) (pos_y s) (width s) (height s) (border_width s)
    (border_style s) (border_color s) (borders s) (_border_origin_x s)
    v (_border_lines s) (_border_color s) (_INIT_STATE s)
    (cur_dash_style s) (canvas_after s).

Definition with__INIT_STATE (v : bool) (s : BorderStyle) : BorderStyle :=
  mkBorderStyle (pos_x s) (pos_y s) (width s) (height s) (border_width s)
    (border_style s) (border_color s) (borders s) (_border_origin_x s)
    (_border_origin_y s) (_border_lines s) (_border_color s) v
    (cur_dash_style s) (canvas_after s).

Definition with_cur_dash_style (v : option DashStyle) (s : BorderStyle)
  : BorderStyle :=
  mkBorderStyle (pos_x s) (pos_y s) (width s) (height s) (border_width s)
    (border_style s) (border_color s) (borders s) (_border_origin_x s)
    (_border_origin_y s) (_border_lines s) (_border_color s) (_INIT_STATE s)
    v (canvas_after s).

Definition with_canvas_after (v : list Instruction) (s : BorderStyle)
  : BorderStyle :=
  mkBorderStyle (pos_x s) (pos_y s) (width s) (height s) (border_width s)
    (border_style s) (border_color s) (borders s) (_border_origin_x s)
    (_border_origin_y s) (_border_lines s) (_border_color s) (_INIT_STATE s)
    (cur_dash_style s) v.

Definition with_graphics (c l : option nat) (s : BorderStyle) : BorderStyle :=
  mkBorderStyle (pos_x s) (pos_y s) (width s) (height s) (border_width s)
    (border_style s) (border_color s) (borders s) (_border_origin_x s)
    (_border_origin_y s) l c (_INIT_STATE s)
    (cur_dash_style s) (canvas_after s).

(** ** Exceptions *)

Inductive exn : Type :=
  | KeyError (key : string)
  | AttributeError (attr : string)
  | RecursionError.

Inductive result (A : Type) : Type :=
  | Ok (a : A)
  | Err (e : exn).
Arguments Ok {A} a.
Arguments Err {A} e.

#[export] Instance result_ret : MRet result := fun _ a => Ok a.

#[export] Instance result_bind : MBind result := fun _ _ f r =>
  match r with
  | Ok a => f a
  | Err e => Err e
  end.

(** ** Access to the instruction behind [self._border_lines] *)

Definition instr_alter (f : Line.t -> Line.t) (i : Instruction)
  : Instruction :=
  match i with
  | InstrLine l => InstrLine (f l)
  | InstrColor c => InstrColor c
  end.

Definition alter_line (f : Line.t -> Line.t) (s : BorderStyle)
  : BorderStyle :=
  match _border_lines s with
  | Some i => with_canvas_after (alter (instr_alter f) i (canvas_after s)) s
  | None => s
  end.

Definition border_line (s : BorderStyle) : option Line.t :=
  match _border_lines s with
  | Some i =>
      match canvas_after s !! i with
      | Some (InstrLine l) => Some l
      | _ => None
      end
  | None => None
  end.

(** ** The methods of [BorderStyle] *)

(** [_draw_border], lines 99-111.  Building [line_kwargs] reads
    [self.cur_dash_style], which raises when [__init__] has not reached
    line 95 yet. *)
Definition _draw_border (s : BorderStyle) : result BorderStyle :=
  match cur_dash_style s with
  | None => Err (AttributeError "cur_dash_style")
  | Some d =>
      let line := Line.mk [Int 0; Int 0; Int 0; Int 0] (border_width s)
                    CAP JOINT (dash_length d) (dash_offset d) in
      let n := length (canvas_after s) in
      Ok (with_graphics (Some n) (Some (S n))
            (with_canvas_after
               (canvas_after s
                  ++ [InstrColor (Color.mk (border_color s)); InstrLine line])
               s))
  end.

(** [_update_borders], lines 113-123. *)
Definition _update_borders (s : BorderStyle) : BorderStyle :=
  let w := border_width s in
  let dbl_width := py_mul (Int 2) w in
  match _border_lines s with
  | Some _ =>
      alter_line
        (Line.with_rectangle
           [_border_origin_x s; _border_origin_y s;
            py_sub (width s) dbl_width; py_sub (height s) dbl_width]) s
  | None => s
  end.

(** [on__border_origin], lines 129-133. *)
Definition on__border_origin (s : BorderStyle) : result BorderStyle :=
  let s := _update_borders s in
  if _INIT_STATE s then Ok s
  else _draw_border (with__INIT_STATE true s).

(** Modelled from the spec: assignment to a property of the toolkit's
    reactive property system (kivy/properties.pyx, not in src).  The spec
    has every [on_<field>] callback "invoked synchronously on field
    mutation" and speaks of handlers running "on any change": an assignment
    whose value compares equal to the stored one stores nothing and calls
    nothing; otherwise the value is stored and the handler runs before the
    assignment returns.  [_border_origin] is the pair of
    [_border_origin_x] and [_border_origin_y], so a change of either
    component is a change of the pair. *)
Definition set__border_origin_x (v : num) (s : BorderStyle)
  : result BorderStyle :=
  if num_eqb (_border_origin_x s) v then Ok s
  else on__border_origin (with__border_origin_x v s).

Definition set__border_origin_y (v : num) (s : BorderStyle)
  : result BorderStyle :=
  if num_eqb (_border_origin_y s) v then Ok s
  else on__border_origin (with__border_origin_y v s).

(** [set_border_origin], lines 125-127. *)
Definition set_border_origin (s : BorderStyle) : result BorderStyle :=
  s ← set__border_origin_x (py_add (pos_x s) (border_width s)) s;
  set__border_origin_y (py_add (pos_y s) (border_width s)) s.

(** [on_pos], lines 145-146. *)
Definition on_pos (s : BorderStyle) : result BorderStyle :=
  set_border_origin s.

(** The value a property holds after an assignment: the old one when the
    new one compares equal to it. *)
Definition store (old new : num) : num :=
  if num_eqb old new then old else new.

(** Modelled from the spec: assignment to the host's [pos], a property of
    the same reactive system as [_border_origin] above.  Each component
    that changed is stored, then [on_pos] runs once if any did. *)
Definition set_pos (x y : num) (s : BorderStyle) : result BorderStyle :=
  if num_eqb (pos_x s) x && num_eqb (pos_y s) y then Ok s
  else on_pos (with_pos_y (store (pos_y s) y)
                 (with_pos_x (store (pos_x s) x) s)).

(** [on_size], lines 135-143. *)
Definition on_size (s : BorderStyle) : result BorderStyle :=
  s ← set_border_origin s;
  s ← set_pos (_border_origin_x s) (_border_origin_y s) s;
  if _INIT_STATE s then Ok s
  else _draw_border (with__INIT_STATE true s).

(** Modelled from the spec: assignment to the host's [size], as for
    [pos]. *)
Definition set_size (w h : num) (s : BorderStyle) : result BorderStyle :=
  if num_eqb (width s) w && num_eqb (height s) h then Ok s
  else on_size (with_height (store (height s) h)
                  (with_width (store (width s) w) s)).

(** [on_border_width], lines 154-175 (the two [print] statements write to
    standard output only and are left out).  Line 175 assigns the property
    the handler belongs to, so the handler re-enters itself; [fuel] bounds
    the nesting, as the interpreter's recursion limit does.  The assignment
    of line 175 is written out: store and re-enter unless the value is
    unchanged. *)
Fixpoint on_border_width (fuel : nat) (s : BorderStyle)
  : result BorderStyle :=
  match fuel with
  | O => Err RecursionError
  | S fuel =>
      s ← set_border_origin s;
      let max_width := py_div (width s) (Int 4) in
      match _border_lines s with
      | Some _ =>
          if num_leb (border_width s) max_width then
            if num_gtb (border_width s) (Int 0) then
              Ok (alter_line (Line.with_width (border_width s)) s)
            else if num_neb (border_width s) (Int 0) then
              Ok (alter_line (Line.with_width (fabs (border_width s))) s)
            else
              Ok (alter_line
                    (Line.with_rectangle [Int 0; Int 0; Int 0; Int 0]) s)
          else
            let s := alter_line (Line.with_width max_width) s in
            if num_eqb (border_width s) max_width then Ok s
            else on_border_width fuel (with_border_width max_width s)
      | None => Ok s
      end
  end.

(** Modelled from the spec: assignment to the property [border_width],
    as for [_border_origin] above. *)
Definition set_border_width (fuel : nat) (v : num) (s : BorderStyle)
  : result BorderStyle :=
  if num_eqb (border_width s) v then Ok s
  else on_border_width fuel (with_border_width v s).

(** Modelled from the spec: assignment to [border_color], a property
    without a handler in this class: the value is stored when it differs
    from the old one. *)
Definition set_border_color (v : list num) (s : BorderStyle) : BorderStyle :=
  if nums_eqb (border_color s) v then s else with_border_color v s.

(** [self._dash_styles[key]]. *)
Definition dash_style_of (key : string) : result DashStyle :=
  match _dash_styles !! key with
  | Some d => Ok d
  | None => Err (KeyError key)
  end.

(** [on_borders], lines 148-152.  The aggregate is a triple; the unpacking
    of line 149 assigns the three targets from left to right.  [Err]
    carries no widget: when line 151 raises, the widget the program is left
    with is the one line 149 has produced, [on_borders_assigned] below. *)
Definition on_borders (fuel : nat) (value : num * string * list num)
  (s : BorderStyle) : result BorderStyle :=
  let '(w, style, color) := value in
  s ← set_border_width fuel w s;
  let s := with_border_style (Some style) s in
  let s := set_border_color color s in
  d ← dash_style_of style;
  let s := with_cur_dash_style (Some d) s in
  set_border_origin s.


Definition borders_eqb (old : option (num * string * list num))
  (new : num * string * list num) : bool :=
  match old, new with
  | Some (w, style, color), (w', style', color') =>
      num_eqb w w' && String.eqb style style' && nums_eqb color color'
  | None, _ => false
  end.

(** Modelled from the spec: assignment to the property [borders], as for
    [_border_origin] above. *)
Definition set_borders (fuel : nat) (v : num * string * list num)
  (s : BorderStyle) : result BorderStyle :=
  if borders_eqb (borders s) v then Ok s
  else on_borders fuel v (with_borders (Some v) s).

(** ** Construction *)

(** The keyword arguments [__init__] looks at; [None] is an argument that
    was not passed ([kwargs.get] then returns Python's [None]). *)
Record Kwargs : Type := mkKwargs {
  kw_border_width : option num;
  kw_border_style : option string;
  kw_border_color : option (list num)
}.

(** The object the host constructor starts from: its geometry (Kivy's
    own defaults are [(0, 0)] and [(100, 100)]; the keyword arguments [pos]
    and [size] are not followed) and the class-level defaults of lines
    57-65.  No handler has run, and the instance attributes [border_style]
    and [cur_dash_style] do not exist yet. *)
Definition class_defaults (x y w h : num) : BorderStyle :=
  mkBorderStyle x y w h (Float 1) None [Int 1; Int 1; Int 1; Int 1] None
    (Float 0) (Float 0) None None false None [].

(** Modelled from the spec: the host widget's constructor
    ([Widget.__init__] of kivy/uix/widget.py, not in src), to which line 90
    hands the keyword arguments.  It assigns those that name a property of
    the class, [border_width] and [border_color], through the property
    system, so the width handler already runs here, before line 91;
    [border_style] is no property and is left to line 94.  The order of
    the two assignments does not matter: the colour has no handler. *)
Definition Widget__init__ (fuel : nat) (x y w h : num) (kwargs : Kwargs)
  : result BorderStyle :=
  let s := class_defaults x y w h in
  s ← match kw_border_width kwargs with
      | Some v => set_border_width fuel v s
      | None => Ok s
      end;
  Ok (match kw_border_color kwargs with
      | Some c => set_border_color c s
      | None => s
      end).

(** [value if value else default] for each kind of argument. *)
Definition num_or (v : option num) (d : num) : num :=
  match v with
  | Some a => if num_truthy a then a else d
  | None => d
  end.

Definition str_or (v : option string) (d : string) : string :=
  match v with
  | Some a => if String.eqb a "" then d else a
  | None => d
  end.

Definition list_or (v : option (list num)) (d : list num) : list num :=
  match v with
  | Some [] => d
  | Some a => a
  | None => d
  end.

(** [__init__], lines 89-97. *)
Definition __init__ (fuel : nat) (x y w h : num) (kwargs : Kwargs)
  : result BorderStyle :=
  s ← Widget__init__ fuel x y w h kwargs;
  s ← set_border_width fuel (num_or (kw_border_width kwargs) (Float 1)) s;
  let style := str_or (kw_border_style kwargs) "solid" in
  let s := with_border_style (Some style) s in
  d ← dash_style_of style;
  let s := with_cur_dash_style (Some d) s in
  Ok (set_border_color
        (list_or (kw_border_color kwargs) [Int 1; Int 1; Int 1; Float 1]) s).

(** ** Events a widget receives after construction *)

Inductive Event : Type :=
  | SetPos (x y : num)
  | SetSize (w h : num)
  | SetBorderWidth (w : num)
  | SetBorderColor (c : list num)
  | SetBorders (v : num * string * list num)
  | OnPos
  | OnSize
  | OnBorderOrigin
  | OnBorderWidth
  | OnBorders (v : num * string * list num).

Definition dispatch (fuel : nat) (e : Event) (s : BorderStyle)
  : result BorderStyle :=
  match e with
  | SetPos x y => set_pos x y s
  | SetSize w h => set_size w h s
  | SetBorderWidth w => set_border_width fuel w s
  | SetBorderColor c => Ok (set_border_color c s)
  | SetBorders v => set_borders fuel v s
  | OnPos => on_pos s
  | OnSize => on_size s
  | OnBorderOrigin => on__border_origin s
  | OnBorderWidth => on_border_width fuel s
  | OnBorders v => on_borders fuel v s
  end.

Fixpoint run (fuel : nat) (es : list Event) (s : BorderStyle)
  : result BorderStyle :=
  match es with
  | [] => Ok s
  | e :: es => s ← dispatch fuel e s; run fuel es s
  end.

(** The synchronisation sequence: the size handler, then the position
    handler. *)
Definition sync (s : BorderStyle) : result BorderStyle :=
  s ← on_size s; on_pos s.

(** ** Predicates used in the statements *)

(** Equality of two numbers as Python's [==] sees it. *)
Definition num_eq (a b : num) : Prop := (num_val a == num_val b)%Q.

(** [max_width] of line 158. *)
Definition max_width (s : BorderStyle) : num := py_div (width s) (Int 4).

(** The draw primitive exists: [_draw_border] has run, and
    [self._border_lines] refers to a line on the canvas. *)
Definition drawn (s : BorderStyle) : Prop :=
  _INIT_STATE s = true /\ is_Some (border_line s).

(** [__init__] has completed: [cur_dash_style] exists. *)
Definition constructed (s : BorderStyle) : Prop :=
  is_Some (cur_dash_style s).

(** What a handler that only moves the origin and redraws leaves alone. *)
Definition same_config (s s' : BorderStyle) : Prop :=
  pos_x s' = pos_x s /\ pos_y s' = pos_y s /\
  width s' = width s /\ height s' = height s /\
  border_width s' = border_width s /\
  border_style s' = border_style s /\ border_color s' = border_color s /\
  borders s' = borders s /\ cur_dash_style s' = cur_dash_style s.

(** The origin is the position moved by the border width on both axes. *)
Definition origin_in_sync (s : BorderStyle) : Prop :=
  num_eq (_border_origin_x s) (py_add (pos_x s) (border_width s)) /\
  num_eq (_border_origin_y s) (py_add (pos_y s) (border_width s)).

(** The rectangle [_update_borders] computes. *)
Definition outline (s : BorderStyle) : list num :=
  [_border_origin_x s; _border_origin_y s;
   py_sub (width s) (py_mul (Int 2) (border_width s));
   py_sub (height s) (py_mul (Int 2) (border_width s))].

(** The state of the graphics: nothing drawn yet, or one colour and one
    line at fixed places of the canvas. *)
Definition one_border (s : BorderStyle) : Prop :=
  (_INIT_STATE s = false /\ canvas_after s = [] /\
   _border_color s = None /\ _border_lines s = None) \/
  (_INIT_STATE s = true /\ _border_color s = Some 0%nat /\
   _border_lines s = Some 1%nat /\
   exists c l, canvas_after s = [InstrColor c; InstrLine l]).

(** The same instructions at the same places of the canvas: nothing was
    created, removed or re-bound. *)
Definition same_graphics (s s' : BorderStyle) : Prop :=
  _INIT_STATE s' = _INIT_STATE s /\
  _border_lines s' = _border_lines s /\
  _border_color s' = _border_color s /\
  length (canvas_after s') = length (canvas_after s).

(** The rectangle of line 171. *)
Definition hidden : list num := [Int 0; Int 0; Int 0; Int 0].

(** What every handler keeps of a constructed widget with at most one
    border: it stays so, and a primitive that exists stays where it is. *)
Definition invariant (s : BorderStyle) : Prop :=
  one_border s /\ constructed s.

Definition evolves (s s' : BorderStyle) : Prop :=
  invariant s' /\
  (_INIT_STATE s = true -> same_graphics s s').

(** No draw primitive has been created. *)
Definition undrawn (s : BorderStyle) : Prop :=
  _INIT_STATE s = false /\ canvas_after s = [] /\
  _border_color s = None /\ _border_lines s = None.

(** ** Concrete widgets *)

Definition no_kwargs : Kwargs := mkKwargs None None None.

Definition white : list num := [Int 1; Int 1; Int 1; Int 1].
Definition red : list num := [Int 1; Int 0; Int 0; Int 1].

(** A widget constructed without arguments at [(0, 0)] with size
    [(100, 100)]. *)
Definition fresh_label : BorderStyle :=
  mkBorderStyle (Int 0) (Int 0) (Int 100) (Int 100) (Float 1) (Some "solid")
    white None (Float 0) (Float 0) None None false (Some (mkDash 1 0)) [].

(** A widget of size [(w, h)] after its first size event, which moved it to
    [(1, 1)] and drew the border with rectangle [r]. *)
Definition laid_out (w h : num) (r : list num) : BorderStyle :=
  mkBorderStyle (Float 1) (Float 1) w h (Float 1) (Some "solid")
    white None (Float 2) (Float 2) (Some 1%nat) (Some 0%nat) true
    (Some (mkDash 1 0))
    [InstrColor (Color.mk white);
     InstrLine (Line.mk r (Float 1) CAP JOINT 1 0)].

Definition demo_label : BorderStyle :=
  laid_out (Int 100) (Int 100) [Float 2; Float 2; Float 98; Float 98].

(** The same after its size was set to [(-4, 8)]: Kivy puts no bound on
    the size of a widget. *)
Definition flipped_label : BorderStyle :=
  laid_out (Int (-4)) (Int 8) [Float 2; Float 2; Float (-6); Float 6].

(** [fresh_label] after [border_width = 0]: nothing moved, nothing was
    drawn. *)
Definition borderless_label : BorderStyle :=
  with_border_width (Int 0) fresh_label.


(** ** What is drawn, apart from geometry and stroke width *)

(** The attributes of a line that only [_draw_border] gives it. *)
Definition line_style (l : Line.t) : string * string * Z * Z :=
  (Line.cap l, Line.joint l, Line.dash_length l, Line.dash_offset l).

(** The instruction behind [self._border_color]. *)
Definition colour_instruction (s : BorderStyle) : option Instruction :=
  match _border_color s with
  | Some i => canvas_after s !! i
  | None => None
  end.

Definition same_drawing (s s' : BorderStyle) : Prop :=
  colour_instruction s' = colour_instruction s /\
  line_style <$> border_line s' = line_style <$> border_line s.

(** A constructed widget with its one border drawn. *)
Definition settled (s : BorderStyle) : Prop :=
  invariant s /\ _INIT_STATE s = true.

(** [demo_label] after [border_width = 0]: the border is hidden. *)
Definition hidden_label : BorderStyle :=
  mkBorderStyle (Float 1) (Float 1) (Int 100) (Int 100) (Int 0)
    (Some "solid") white None (Float 1) (Float 1) (Some 1%nat) (Some 0%nat)
    true (Some (mkDash 1 0))
    [InstrColor (Color.mk white);
     InstrLine (Line.mk hidden (Float 1) CAP JOINT 1 0)].

(** The style, the colour, the aggregate and the dash parameters: what the
    geometry handlers have no business with. *)
Definition same_aggregate (s s' : BorderStyle) : Prop :=
  border_style s' = border_style s /\ border_color s' = border_color s /\
  borders s' = borders s /\ cur_dash_style s' = cur_dash_style s.

(** The dash parameters are those of the style. *)
Definition style_consistent (s : BorderStyle) : Prop :=
  exists style d,
    border_style s = Some style /\ cur_dash_style s = Some d /\
    _dash_styles !! style = Some d.

(** The border on the canvas has stroke width [w], colour [color], the
    cap and joint of the class and the dash parameters [d]. *)
Definition drawn_with (w : num) (color : list num) (d : DashStyle)
  (s : BorderStyle) : Prop :=
  colour_instruction s = Some (InstrColor (Color.mk color)) /\
  exists l,
    border_line s = Some l /\ Line.width l = w /\
    line_style l = (CAP, JOINT, dash_length d, dash_offset d).

(** ** Sums that differ

    Hypotheses of the statements that need an assignment to move the
    origin: they compare the sums the code computes. *)

(** The origin for width [a] and the origin for width [b] differ on some
    axis. *)
Definition offsets_differ (s : BorderStyle) (a b : num) : Prop :=
  num_eqb (py_add (pos_x s) a) (py_add (pos_x s) b)
  && num_eqb (py_add (pos_y s) a) (py_add (pos_y s) b) = false.

(** The widget between the store of a new position and the call of
    [on_pos] (see [set_pos]). *)
Definition moved_to (x y : num) (s : BorderStyle) : BorderStyle :=
  with_pos_y (store (pos_y s) y) (with_pos_x (store (pos_x s) x) s).

(** The border width is not absorbed by the position: the origin that
    [set_border_origin] leaves differs from the position, and adding the
    width to it once more gives yet another value, on both axes. *)
Definition width_not_absorbed (s : BorderStyle) : Prop :=
  let b := border_width s in
  let ox := store (_border_origin_x s) (py_add (pos_x s) b) in
  let oy := store (_border_origin_y s) (py_add (pos_y s) b) in
  num_eqb (pos_x s) ox = false /\ num_eqb (pos_y s) oy = false /\
  num_eqb ox (py_add ox b) = false /\ num_eqb oy (py_add oy b) = false.

(** * Proofs *)

(** ** Numbers *)

Lemma num_eqb_true (a b : num) : num_eqb a b = true <-> num_eq a b.
Proof. apply Qeq_bool_iff. Qed.

Lemma num_eqb_false (a b : num) : num_eqb a b = false <-> ~ num_eq a b.
Proof.
  rewrite <- num_eqb_true. destruct (num_eqb a b); split; congruence.
Qed.

Lemma num_leb_true (a b : num) :
  num_leb a b = true <-> (num_val a <= num_val b)%Q.
Proof. apply Qle_bool_iff. Qed.

Lemma num_leb_false (a b : num) :
  num_leb a b = false <-> (num_val b < num_val a)%Q.
Proof.
  destruct (num_leb a b) eqn:E.
  - apply num_leb_true in E. split; [discriminate | intros H; lra].
  - split; [intros _ | reflexivity].
    destruct (Qlt_le_dec (num_val b) (num_val a)) as [H|H]; [exact H|].
    apply num_leb_true in H. congruence.
Qed.

Lemma num_gtb_true (a b : num) :
  num_gtb a b = true <-> (num_val b < num_val a)%Q.
Proof.
  unfold num_gtb. rewrite negb_true_iff. apply num_leb_false.
Qed.

Lemma num_eqb_refl (a : num) : num_eqb a a = true.
Proof. apply num_eqb_true. unfold num_eq. reflexivity. Qed.

Lemma num_eqb_sym (a b : num) : num_eqb a b = num_eqb b a.
Proof.
  destruct (num_eqb b a) eqn:E.
  - apply num_eqb_true. apply num_eqb_true in E. unfold num_eq in *.
    symmetry. exact E.
  - apply num_eqb_false. apply num_eqb_false in E. unfold num_eq in *.
    intros H. apply E. symmetry. exact H.
Qed.

Lemma num_val_add (a b : num) :
  (num_val (py_add a b) == num_val a + num_val b)%Q.
Proof.
  destruct a, b; cbn [num_val py_add]; rewrite ?inject_Z_plus; reflexivity.
Qed.

Lemma num_val_sub (a b : num) :
  (num_val (py_sub a b) == num_val a - num_val b)%Q.
Proof.
  destruct a, b; cbn [num_val py_sub]; try reflexivity.
  unfold Z.sub, Qminus. rewrite inject_Z_plus, inject_Z_opp. reflexivity.
Qed.

Lemma num_val_mul (a b : num) :
  (num_val (py_mul a b) == num_val a * num_val b)%Q.
Proof.
  destruct a, b; cbn [num_val py_mul]; rewrite ?inject_Z_mult; reflexivity.
Qed.

Lemma num_val_fabs (a : num) : num_val (fabs a) = Qabs (num_val a).
Proof. reflexivity. Qed.

(** Floor division by four never exceeds the quarter, and keeps the sign
    of a non-negative dividend. *)
Lemma quarter_le (a : num) :
  (4 * num_val (py_div a (Int 4)) <= num_val a)%Q.
Proof.
  destruct a as [z|q]; cbn [num_val py_div].
  - change 4%Q with (inject_Z 4). rewrite <- inject_Z_mult.
    rewrite <- Zle_Qle. apply Z.mul_div_le. lia.
  - change (inject_Z 4) with 4%Q. field_simplify. apply Qle_refl.
Qed.

Lemma quarter_nonneg (a : num) :
  (0 <= num_val a)%Q -> (0 <= num_val (py_div a (Int 4)))%Q.
Proof.
  destruct a as [z|q]; cbn [num_val py_div]; intros H.
  - change 0%Q with (inject_Z 0) in *. rewrite <- Zle_Qle in *.
    apply Z.div_pos; lia.
  - change (inject_Z 4) with 4%Q. apply Qle_shift_div_l; lra.
Qed.

(** ** The line behind the reference *)

Lemma border_line_alter (f : Line.t -> Line.t) (s : BorderStyle) :
  border_line (alter_line f s) = f <$> border_line s.
Proof.
  unfold border_line, alter_line.
  destruct (_border_lines s) as [i|] eqn:E; [|rewrite E; reflexivity].
  cbn. rewrite E, list_lookup_alter_eq.
  destruct (canvas_after s !! i) as [[c|l]|]; reflexivity.
Qed.

Lemma alter_line_config (f : Line.t -> Line.t) (s : BorderStyle) :
  same_config s (alter_line f s).
Proof.
  unfold same_config, alter_line.
  destruct (_border_lines s) eqn:E; cbn; repeat split.
Qed.

Lemma alter_line_graphics (f : Line.t -> Line.t) (s : BorderStyle) :
  same_graphics s (alter_line f s).
Proof.
  unfold same_graphics, alter_line.
  destruct (_border_lines s) eqn:E; cbn; rewrite ?E; repeat split.
  apply length_alter.
Qed.

Lemma alter_line_origin (f : Line.t -> Line.t) (s : BorderStyle) :
  _border_origin_x (alter_line f s) = _border_origin_x s /\
  _border_origin_y (alter_line f s) = _border_origin_y s.
Proof.
  unfold alter_line. destruct (_border_lines s); cbn; split; reflexivity.
Qed.

Lemma same_config_refl (s : BorderStyle) : same_config s s.
Proof. unfold same_config. repeat split. Qed.

Lemma same_config_trans (s1 s2 s3 : BorderStyle) :
  same_config s1 s2 -> same_config s2 s3 -> same_config s1 s3.
Proof.
  unfold same_config. intros H1 H2.
  destruct H1 as (?&?&?&?&?&?&?&?&?), H2 as (?&?&?&?&?&?&?&?&?).
  repeat split; congruence.
Qed.

Lemma same_graphics_refl (s : BorderStyle) : same_graphics s s.
Proof. unfold same_graphics. repeat split. Qed.

Lemma same_graphics_trans (s1 s2 s3 : BorderStyle) :
  same_graphics s1 s2 -> same_graphics s2 s3 -> same_graphics s1 s3.
Proof.
  unfold same_graphics. intros (?&?&?&?) (?&?&?&?).
  repeat split; congruence.
Qed.

(** ** [_update_borders] and [on__border_origin] *)

Lemma update_borders_line (s : BorderStyle) :
  border_line (_update_borders s)
  = Line.with_rectangle (outline s) <$> border_line s.
Proof.
  unfold _update_borders.
  destruct (_border_lines s) eqn:E.
  - apply border_line_alter.
  - unfold border_line. rewrite E. reflexivity.
Qed.

Lemma update_borders_config (s : BorderStyle) :
  same_config s (_update_borders s).
Proof.
  unfold _update_borders.
  destruct (_border_lines s); [apply alter_line_config|apply same_config_refl].
Qed.

Lemma update_borders_graphics (s : BorderStyle) :
  same_graphics s (_update_borders s).
Proof.
  unfold _update_borders.
  destruct (_border_lines s);
    [apply alter_line_graphics|apply same_graphics_refl].
Qed.

Lemma update_borders_origin (s : BorderStyle) :
  _border_origin_x (_update_borders s) = _border_origin_x s /\
  _border_origin_y (_update_borders s) = _border_origin_y s.
Proof.
  unfold _update_borders.
  destruct (_border_lines s); [apply alter_line_origin|split; reflexivity].
Qed.

Lemma on__border_origin_init (s : BorderStyle) :
  _INIT_STATE s = true -> on__border_origin s = Ok (_update_borders s).
Proof.
  intros H. unfold on__border_origin.
  destruct (update_borders_graphics s) as (Hi & _).
  rewrite Hi, H. reflexivity.
Qed.

(** ** [set_border_origin] *)

Lemma set_border_origin_stable (s : BorderStyle) :
  origin_in_sync s -> set_border_origin s = Ok s.
Proof.
  intros [Hx Hy]. unfold set_border_origin, set__border_origin_x.
  apply num_eqb_true in Hx. rewrite Hx. cbn.
  unfold set__border_origin_y. apply num_eqb_true in Hy. rewrite Hy.
  reflexivity.
Qed.

Lemma with_rectangle_same (l : Line.t) :
  Line.with_rectangle (Line.rectangle l) l = l.
Proof. destruct l. reflexivity. Qed.

(** Once the primitive exists, moving the origin only rewrites the
    rectangle of the existing line. *)
Lemma set_border_origin_init (s : BorderStyle) :
  _INIT_STATE s = true ->
  exists s',
    set_border_origin s = Ok s' /\
    same_config s s' /\ same_graphics s s' /\ origin_in_sync s' /\
    forall l, border_line s = Some l ->
      exists r, border_line s' = Some (Line.with_rectangle r l) /\
                (~ origin_in_sync s -> r = outline s').
Proof.
  intros Hinit. unfold set_border_origin, set__border_origin_x.
  destruct (num_eqb (_border_origin_x s) (py_add (pos_x s) (border_width s)))
    eqn:Ex.
  - cbn. unfold set__border_origin_y.
    destruct (num_eqb (_border_origin_y s)
                (py_add (pos_y s) (border_width s))) eqn:Ey.
    + exists s. split; [reflexivity|].
      split; [apply same_config_refl|]. split; [apply same_graphics_refl|].
      apply num_eqb_true in Ex, Ey. split; [split; assumption|].
      intros l Hl. exists (Line.rectangle l).
      rewrite with_rectangle_same. split; [exact Hl|].
      intros Hn. exfalso. apply Hn. split; assumption.
    + rewrite on__border_origin_init by exact Hinit.
      eexists. split; [reflexivity|].
      split; [apply (update_borders_config (with__border_origin_y _ s))|].
      split; [apply (update_borders_graphics (with__border_origin_y _ s))|].
      destruct (update_borders_origin
                  (with__border_origin_y
                     (py_add (pos_y s) (border_width s)) s)) as [Hox Hoy].
      destruct (update_borders_config
                  (with__border_origin_y
                     (py_add (pos_y s) (border_width s)) s))
        as (Hpx&Hpy&_&_&Hbw&_).
      split.
      * unfold origin_in_sync. rewrite Hox, Hoy, Hpx, Hpy, Hbw. cbn.
        apply num_eqb_true in Ex. split; [exact Ex|]. unfold num_eq.
        reflexivity.
      * intros l Hl. eexists. rewrite update_borders_line.
        change (border_line (with__border_origin_y
                  (py_add (pos_y s) (border_width s)) s))
          with (border_line s).
        rewrite Hl. split; [reflexivity|]. intros _.
        unfold outline.
        destruct (update_borders_config
                  (with__border_origin_y
                     (py_add (pos_y s) (border_width s)) s))
          as (_&_&Hw&Hh&Hb&_).
        rewrite Hox, Hoy, Hw, Hh, Hb. reflexivity.
  - rewrite on__border_origin_init by exact Hinit. cbn.
    set (s1 := _update_borders
                 (with__border_origin_x (py_add (pos_x s) (border_width s)) s)).
    assert (Hc1 : same_config s s1)
      by apply (update_borders_config (with__border_origin_x _ s)).
    assert (Hg1 : same_graphics s s1)
      by apply (update_borders_graphics (with__border_origin_x _ s)).
    destruct (update_borders_origin
                (with__border_origin_x (py_add (pos_x s) (border_width s)) s))
      as [Hox1 Hoy1]. fold s1 in Hox1, Hoy1. cbn in Hox1, Hoy1.
    assert (Hl1 : border_line s1
                  = Line.with_rectangle
                      (outline (with__border_origin_x
                                  (py_add (pos_x s) (border_width s)) s))
                    <$> border_line s)
      by apply (update_borders_line (with__border_origin_x _ s)).
    assert (Hinit1 : _INIT_STATE s1 = true)
      by (destruct Hg1 as (Hi&_); rewrite Hi; exact Hinit).
    pose proof Hc1 as (Hpx&Hpy&Hw&Hh&Hb&_).
    unfold set__border_origin_y.
    destruct (num_eqb (_border_origin_y s1)
                (py_add (pos_y s1) (border_width s1))) eqn:Ey.
    + exists s1. split; [reflexivity|].
      split; [exact Hc1|]. split; [exact Hg1|].
      split.
      * split; [|apply num_eqb_true; exact Ey].
        rewrite Hox1, Hpx, Hb. unfold num_eq. reflexivity.
      * intros l Hl. eexists. rewrite Hl1, Hl. split; [reflexivity|].
        intros _. unfold outline. rewrite Hox1, Hoy1, Hw, Hh, Hb.
        reflexivity.
    + rewrite on__border_origin_init by exact Hinit1.
      set (s2 := _update_borders
                   (with__border_origin_y
                      (py_add (pos_y s1) (border_width s1)) s1)).
      assert (Hc2 : same_config s1 s2)
        by apply (update_borders_config (with__border_origin_y _ s1)).
      assert (Hg2 : same_graphics s1 s2)
        by apply (update_borders_graphics (with__border_origin_y _ s1)).
      destruct (update_borders_origin
                  (with__border_origin_y
                     (py_add (pos_y s1) (border_width s1)) s1))
        as [Hox2 Hoy2]. fold s2 in Hox2, Hoy2. cbn in Hox2, Hoy2.
      pose proof Hc2 as (Hpx2&Hpy2&Hw2&Hh2&Hb2&_).
      exists s2. split; [reflexivity|].
      split; [eapply same_config_trans; eassumption|].
      split; [eapply same_graphics_trans; eassumption|].
      split.
      * unfold origin_in_sync.
        rewrite Hox2, Hoy2, Hox1, Hpx2, Hpy2, Hb2, Hpx, Hb.
        split; unfold num_eq; reflexivity.
      * intros l Hl. eexists. unfold s2. rewrite update_borders_line.
        change (border_line (with__border_origin_y
                  (py_add (pos_y s1) (border_width s1)) s1))
          with (border_line s1).
        rewrite Hl1, Hl. cbn. split; [reflexivity|]. intros _.
        unfold outline. fold s2. rewrite Hox2, Hoy2, Hw2, Hh2, Hb2.
        cbn. rewrite Hox1. reflexivity.
Qed.

(** ** [on_border_width] *)


Lemma border_line_ref (s : BorderStyle) (l : Line.t) :
  border_line s = Some l -> exists i, _border_lines s = Some i.
Proof.
  unfold border_line. destruct (_border_lines s) as [i|]; [eauto|discriminate].
Qed.

(** One activation of the handler on a widget whose primitive exists: the
    origin is brought in line first, then the four cases of lines 161-175
    are told apart by the stored width and a quarter of the widget's
    width. *)
Lemma on_border_width_step (fuel : nat) (s : BorderStyle) (l : Line.t) :
  _INIT_STATE s = true -> border_line s = Some l ->
  exists s1 r,
    same_config s s1 /\ same_graphics s s1 /\ origin_in_sync s1 /\
    border_line s1 = Some (Line.with_rectangle r l) /\
    (~ origin_in_sync s -> r = outline s1) /\
    on_border_width (S fuel) s =
      if num_leb (border_width s) (max_width s) then
        if num_gtb (border_width s) (Int 0) then
          Ok (alter_line (Line.with_width (border_width s)) s1)
        else if num_neb (border_width s) (Int 0) then
          Ok (alter_line (Line.with_width (fabs (border_width s))) s1)
        else Ok (alter_line (Line.with_rectangle hidden) s1)
      else
        if num_eqb (border_width s) (max_width s) then
          Ok (alter_line (Line.with_width (max_width s)) s1)
        else
          on_border_width fuel
            (with_border_width (max_width s)
               (alter_line (Line.with_width (max_width s)) s1)).
Proof.
  intros Hinit Hl.
  destruct (set_border_origin_init s Hinit) as (s1 & Hs1 & Hc & Hg & Ho & Hr).
  destruct (Hr l Hl) as (r & Hl1 & Hout).
  exists s1, r. repeat (split; [assumption|]).
  cbn [on_border_width]. rewrite Hs1. cbn [mbind result_bind].
  destruct (border_line_ref _ _ Hl1) as [i Hi]. rewrite Hi.
  destruct Hc as (_&_&Hw&_&Hb&_). unfold max_width.
  rewrite Hw, Hb.
  destruct (alter_line_config (Line.with_width (py_div (width s) (Int 4))) s1)
    as (_&_&_&_&Hb2&_).
  rewrite Hb2, Hb. reflexivity.
Qed.

Lemma num_leb_refl (a : num) : num_leb a a = true.
Proof. apply num_leb_true. apply Qle_refl. Qed.

Lemma gt_not_eqb (a b : num) : num_gtb a b = true -> num_eqb a b = false.
Proof.
  intros H. apply num_gtb_true in H. apply num_eqb_false.
  unfold num_eq. intros E. rewrite E in H. exact (Qlt_irrefl _ H).
Qed.

Lemma gt_not_leb (a b : num) : num_gtb a b = true -> num_leb a b = false.
Proof. unfold num_gtb. apply negb_true_iff. Qed.

(** The nested activation that line 175 causes, on a widget of
    non-negative width: the width it finds stored is [max_width], which the
    first two tests let through. *)
Lemma on_border_width_at_max (fuel : nat) (s : BorderStyle) (l : Line.t) :
  _INIT_STATE s = true -> border_line s = Some l ->
  border_width s = max_width s -> Line.width l = max_width s ->
  (0 <= num_val (width s))%Q ->
  exists s' l',
    on_border_width (S fuel) s = Ok s' /\
    same_config s s' /\ same_graphics s s' /\ origin_in_sync s' /\
    border_line s' = Some l' /\ Line.width l' = max_width s.
Proof.
  intros Hinit Hl Hb Hlw Hpos.
  destruct (on_border_width_step fuel s l Hinit Hl)
    as (s1 & r & Hc & Hg & Ho & Hl1 & _ & Hstep).
  rewrite Hstep, Hb, num_leb_refl.
  pose proof (quarter_nonneg _ Hpos) as Hq. fold (max_width s) in Hq.
  destruct (num_gtb (max_width s) (Int 0)) eqn:Egt.
  - eexists _, _. split; [reflexivity|].
    split; [eapply same_config_trans; [exact Hc|apply alter_line_config]|].
    split; [eapply same_graphics_trans; [exact Hg|apply alter_line_graphics]|].
    split.
    { destruct Ho as [Hx Hy]. unfold origin_in_sync.
      destruct (alter_line_origin (Line.with_width (max_width s)) s1)
        as [-> ->].
      destruct (alter_line_config (Line.with_width (max_width s)) s1)
        as (->&->&_&_&->&_). split; assumption. }
    rewrite border_line_alter, Hl1. cbn. split; reflexivity.
  - assert (Hz : num_neb (max_width s) (Int 0) = false).
    { unfold num_neb. apply negb_false_iff. apply num_eqb_true.
      unfold num_gtb in Egt. apply negb_false_iff in Egt.
      apply num_leb_true in Egt. unfold num_eq.
      change (num_val (Int 0)) with 0%Q in *. lra. }
    rewrite Hz. eexists _, _. split; [reflexivity|].
    split; [eapply same_config_trans; [exact Hc|apply alter_line_config]|].
    split; [eapply same_graphics_trans; [exact Hg|apply alter_line_graphics]|].
    split.
    { destruct Ho as [Hx Hy]. unfold origin_in_sync.
      destruct (alter_line_origin (Line.with_rectangle hidden) s1)
        as [-> ->].
      destruct (alter_line_config (Line.with_rectangle hidden) s1)
        as (->&->&_&_&->&_). split; assumption. }
    rewrite border_line_alter, Hl1. cbn. split; [reflexivity|exact Hlw].
Qed.

(** C1, as amended: on a widget of non-negative width whose draw primitive
    exists, changing [border_width] to a [w] greater than [width / 4]
    leaves both the stored field and the stroke width of the line at
    [width / 4] ([/] as the code computes it), and the line is the one that
    was there before. *)
Theorem border_width_clamped (fuel : nat) (s : BorderStyle) (w : num) :
  drawn s ->
  (0 <= num_val (width s))%Q ->
  num_gtb w (max_width s) = true ->
  num_eqb (border_width s) w = false ->
  exists s' l',
    set_border_width (S (S fuel)) w s = Ok s' /\
    border_width s' = max_width s /\
    border_line s' = Some l' /\ Line.width l' = max_width s /\
    same_graphics s s'.
Proof.
  intros [Hinit [l Hl]] Hpos Hgt Hchg.
  unfold set_border_width. rewrite Hchg.
  set (s0 := with_border_width w s).
  destruct (on_border_width_step (S fuel) s0 l Hinit Hl)
    as (s1 & r & Hc & Hg & _ & Hl1 & _ & Hstep).
  rewrite Hstep. change (border_width s0) with w.
  change (max_width s0) with (max_width s).
  rewrite (gt_not_leb _ _ Hgt), (gt_not_eqb _ _ Hgt).
  set (s2 := alter_line (Line.with_width (max_width s)) s1).
  assert (Hg2 : same_graphics s1 s2) by apply alter_line_graphics.
  assert (Hc2 : same_config s1 s2) by apply alter_line_config.
  set (s3 := with_border_width (max_width s) s2).
  assert (Hw3 : width s3 = width s).
  { destruct Hc as (_&_&Hw&_), Hc2 as (_&_&Hw2&_).
    change (width s3) with (width s2). rewrite Hw2, Hw. reflexivity. }
  assert (Hm3 : max_width s3 = max_width s)
    by (unfold max_width; rewrite Hw3; reflexivity).
  assert (Hi3 : _INIT_STATE s3 = true).
  { destruct Hg as (Hi&_), Hg2 as (Hi2&_).
    change (_INIT_STATE s3) with (_INIT_STATE s2).
    rewrite Hi2, Hi. exact Hinit. }
  assert (Hl3 : border_line s3
                = Some (Line.with_width (max_width s)
                          (Line.with_rectangle r l))).
  { change (border_line s3) with (border_line s2). unfold s2.
    rewrite border_line_alter, Hl1. reflexivity. }
  destruct (on_border_width_at_max fuel s3 _ Hi3 Hl3)
    as (s' & l' & Hrun & Hc' & Hg' & _ & Hl' & Hw');
    [rewrite Hm3; reflexivity | rewrite Hm3; reflexivity
     | rewrite Hw3; exact Hpos |].
  exists s', l'. split; [exact Hrun|].
  rewrite Hm3 in Hw'. split.
  { destruct Hc' as (_&_&_&_&Hb&_). rewrite Hb. reflexivity. }
  split; [exact Hl'|]. split; [exact Hw'|].
  eapply same_graphics_trans; [|exact Hg'].
  eapply same_graphics_trans; [exact Hg|]. exact Hg2.
Qed.

Lemma alter_line_sync (f : Line.t -> Line.t) (s : BorderStyle) :
  origin_in_sync s -> origin_in_sync (alter_line f s).
Proof.
  intros [Hx Hy]. unfold origin_in_sync.
  destruct (alter_line_origin f s) as [-> ->].
  destruct (alter_line_config f s) as (->&->&_&_&->&_). split; assumption.
Qed.

Lemma alter_line_outline (f : Line.t -> Line.t) (s : BorderStyle) :
  outline (alter_line f s) = outline s.
Proof.
  unfold outline.
  destruct (alter_line_origin f s) as [-> ->].
  destruct (alter_line_config f s) as (_&_&->&->&->&_). reflexivity.
Qed.

(** A non-zero width within the limit: the stroke width is the width, or
    its absolute value when it is negative, and a rectangle that had to
    follow the origin is the outline. *)
Lemma on_border_width_in_range (fuel : nat) (s : BorderStyle) (l : Line.t) :
  _INIT_STATE s = true -> border_line s = Some l ->
  num_leb (border_width s) (max_width s) = true ->
  num_neb (border_width s) (Int 0) = true ->
  exists s' l',
    on_border_width (S fuel) s = Ok s' /\
    same_config s s' /\ same_graphics s s' /\ origin_in_sync s' /\
    border_line s' = Some l' /\
    Line.width l'
    = (if num_gtb (border_width s) (Int 0) then border_width s
       else fabs (border_width s)) /\
    (~ origin_in_sync s -> Line.rectangle l' = outline s').
Proof.
  intros Hinit Hl Hle Hnz.
  destruct (on_border_width_step fuel s l Hinit Hl)
    as (s1 & r & Hc & Hg & Ho & Hl1 & Hr & Hstep).
  rewrite Hstep, Hle, Hnz.
  destruct (num_gtb (border_width s) (Int 0)).
  - eexists _, _. split; [reflexivity|].
    split; [eapply same_config_trans; [exact Hc|apply alter_line_config]|].
    split; [eapply same_graphics_trans; [exact Hg|apply alter_line_graphics]|].
    split; [apply alter_line_sync; exact Ho|].
    rewrite border_line_alter, Hl1. cbn. split; [reflexivity|].
    split; [reflexivity|]. intros Hn. rewrite alter_line_outline. auto.
  - eexists _, _. split; [reflexivity|].
    split; [eapply same_config_trans; [exact Hc|apply alter_line_config]|].
    split; [eapply same_graphics_trans; [exact Hg|apply alter_line_graphics]|].
    split; [apply alter_line_sync; exact Ho|].
    rewrite border_line_alter, Hl1. cbn. split; [reflexivity|].
    split; [reflexivity|]. intros Hn. rewrite alter_line_outline. auto.
Qed.

Lemma negative_nonzero (w : num) :
  num_gtb (Int 0) w = true ->
  num_neb w (Int 0) = true /\ num_gtb w (Int 0) = false.
Proof.
  intros H. apply num_gtb_true in H. split.
  - unfold num_neb. apply negb_true_iff, num_eqb_false. unfold num_eq.
    intros E. rewrite E in H. exact (Qlt_irrefl _ H).
  - unfold num_gtb. apply negb_false_iff, num_leb_true. apply Qlt_le_weak.
    exact H.
Qed.

(** C5, as amended: on a widget whose draw primitive exists, changing
    [border_width] to a negative [w] that is not greater than [width / 4]
    (every negative [w], when the widget's width is not negative) makes the
    stroke width [fabs w], keeps [w] in the field, and leaves the origin at
    the position moved by the negative [w] on both axes. *)
Theorem negative_border_width (fuel : nat) (s : BorderStyle) (w : num) :
  drawn s ->
  num_gtb (Int 0) w = true ->
  num_leb w (max_width s) = true ->
  num_eqb (border_width s) w = false ->
  exists s' l',
    set_border_width (S fuel) w s = Ok s' /\
    border_width s' = w /\
    border_line s' = Some l' /\ Line.width l' = fabs w /\
    pos_x s' = pos_x s /\ pos_y s' = pos_y s /\
    num_eq (_border_origin_x s') (py_add (pos_x s) w) /\
    num_eq (_border_origin_y s') (py_add (pos_y s) w).
Proof.
  intros [Hinit [l Hl]] Hneg Hle Hchg.
  unfold set_border_width. rewrite Hchg.
  destruct (negative_nonzero w Hneg) as [Hnz Hngt].
  destruct (on_border_width_in_range fuel (with_border_width w s) l
              Hinit Hl Hle Hnz)
    as (s' & l' & Hrun & Hc & _ & [Hox Hoy] & Hl' & Hw' & _).
  exists s', l'. split; [exact Hrun|].
  destruct Hc as (Hpx&Hpy&_&_&Hb&_). cbn in Hpx, Hpy, Hb, Hw'.
  rewrite Hngt in Hw'. rewrite Hpx, Hb in Hox. rewrite Hpy, Hb in Hoy.
  repeat (split; [assumption|]). assumption.
Qed.

Lemma num_eq_sym (a b : num) : num_eq a b -> num_eq b a.
Proof. unfold num_eq. intros H. symmetry. exact H. Qed.

Lemma num_eq_trans (a b c : num) : num_eq a b -> num_eq b c -> num_eq a c.
Proof. unfold num_eq. intros H1 H2. rewrite H1. exact H2. Qed.

(** An origin that equals the position offset by [a] is out of line with
    the width [b] as soon as the two offsets differ on some axis. *)
Lemma out_of_sync_by_offset (s : BorderStyle) (a b : num) :
  num_eq (_border_origin_x s) (py_add (pos_x s) a) ->
  num_eq (_border_origin_y s) (py_add (pos_y s) a) ->
  offsets_differ s a b ->
  ~ origin_in_sync (with_border_width b s).
Proof.
  intros Hx Hy Hd [Hx' Hy']. cbn in Hx', Hy'. unfold offsets_differ in Hd.
  apply andb_false_iff in Hd. destruct Hd as [E|E];
    apply num_eqb_false in E; apply E.
  - eapply num_eq_trans; [apply num_eq_sym; exact Hx|exact Hx'].
  - eapply num_eq_trans; [apply num_eq_sym; exact Hy|exact Hy'].
Qed.

(** The horizontal extent of the outline of a border within the limit is
    positive on a widget of non-negative width. *)
Lemma outline_extent (W b : num) :
  (0 <= num_val W)%Q ->
  num_leb b (py_div W (Int 4)) = true -> num_neb b (Int 0) = true ->
  (0 < num_val (py_sub W (py_mul (Int 2) b)))%Q.
Proof.
  intros HW Hle Hnz. apply num_leb_true in Hle.
  unfold num_neb in Hnz. apply negb_true_iff, num_eqb_false in Hnz.
  unfold num_eq in Hnz. change (num_val (Int 0)) with 0%Q in Hnz.
  pose proof (quarter_le W) as Hq.
  rewrite num_val_sub, num_val_mul. change (num_val (Int 2)) with 2%Q.
  destruct (Qlt_le_dec 0 (num_val b)) as [Hp|Hn]; [lra|].
  assert (num_val b < 0)%Q; [|lra].
  apply Qle_lteq in Hn. destruct Hn as [Hn|Hn]; [exact Hn|].
  exfalso. apply Hnz. exact Hn.
Qed.

Lemma fabs_nonzero (b : num) :
  num_neb b (Int 0) = true -> ~ num_eq (fabs b) (Int 0).
Proof.
  unfold num_neb. intros Hnz. apply negb_true_iff, num_eqb_false in Hnz.
  unfold num_eq in *. rewrite num_val_fabs.
  change (num_val (Int 0)) with 0%Q in *. intros E. apply Hnz.
  revert E. apply Qabs_case; intros; lra.
Qed.

Lemma zero_tests (z : num) :
  num_eqb z (Int 0) = true ->
  num_gtb z (Int 0) = false /\ num_neb z (Int 0) = false.
Proof.
  intros H. unfold num_neb. rewrite H. split; [|reflexivity].
  apply num_eqb_true in H. unfold num_gtb. apply negb_false_iff.
  apply num_leb_true. unfold num_eq in H. rewrite H. apply Qle_refl.
Qed.

Lemma hide_border (fuel : nat) (s : BorderStyle) (z : num) :
  drawn s -> (0 <= num_val (width s))%Q ->
  num_eqb z (Int 0) = true -> num_eqb (border_width s) z = false ->
  exists s1 l1,
    set_border_width (S fuel) z s = Ok s1 /\
    same_config (with_border_width z s) s1 /\ same_graphics s s1 /\
    origin_in_sync s1 /\
    border_line s1 = Some l1 /\ Line.rectangle l1 = hidden.
Proof.
  intros [Hinit [l Hl]] Hpos Hz Hchg.
  unfold set_border_width. rewrite Hchg.
  destruct (on_border_width_step fuel (with_border_width z s) l Hinit Hl)
    as (s1 & r & Hc & Hg & Ho & Hl1 & _ & Hstep).
  rewrite Hstep. change (border_width (with_border_width z s)) with z.
  change (max_width (with_border_width z s)) with (max_width s).
  destruct (zero_tests z Hz) as [-> ->].
  assert (Hle : num_leb z (max_width s) = true).
  { apply num_leb_true. apply num_eqb_true in Hz. unfold num_eq in Hz.
    rewrite Hz. apply (quarter_nonneg _ Hpos). }
  rewrite Hle. eexists _, _. split; [reflexivity|].
  split; [eapply same_config_trans; [exact Hc|apply alter_line_config]|].
  split; [eapply same_graphics_trans; [exact Hg|apply alter_line_graphics]|].
  split; [apply alter_line_sync; exact Ho|].
  rewrite border_line_alter, Hl1. split; reflexivity.
Qed.

Lemma show_border (fuel : nat) (s : BorderStyle) (w : num) :
  drawn s -> origin_in_sync s -> (0 <= num_val (width s))%Q ->
  num_eqb (border_width s) (Int 0) = true ->
  num_neb w (Int 0) = true ->
  (num_leb w (max_width s) = true -> offsets_differ s (border_width s) w) ->
  (num_leb w (max_width s) = false ->
   num_gtb (max_width s) (Int 0) = true /\
   offsets_differ s w (max_width s)) ->
  exists s2 l2,
    set_border_width (S (S fuel)) w s = Ok s2 /\
    same_graphics s s2 /\
    border_line s2 = Some l2 /\ Line.rectangle l2 = outline s2 /\
    (0 < num_val (py_sub (width s2) (py_mul (Int 2) (border_width s2))))%Q /\
    ~ num_eq (Line.width l2) (Int 0).
Proof.
  intros [Hinit [l Hl]] Hsync Hpos Hz Hnz Hin Hout.
  assert (Hchg : num_eqb (border_width s) w = false).
  { apply num_eqb_false. intros E. apply num_eqb_true in Hz.
    unfold num_neb in Hnz. apply negb_true_iff, num_eqb_false in Hnz.
    apply Hnz. eapply num_eq_trans; [apply num_eq_sym; exact E|exact Hz]. }
  unfold set_border_width. rewrite Hchg.
  set (s0 := with_border_width w s) in *.
  destruct (num_leb w (max_width s)) eqn:Hle.
  - pose proof (out_of_sync_by_offset s (border_width s) w
                  (proj1 Hsync) (proj2 Hsync) (Hin eq_refl)) as Hns.
    destruct (on_border_width_in_range (S fuel) s0 l Hinit Hl Hle Hnz)
      as (s2 & l2 & Hrun & Hc & Hg & _ & Hl2 & Hw2 & Hr2).
    exists s2, l2. split; [exact Hrun|]. split; [exact Hg|].
    split; [exact Hl2|]. split; [exact (Hr2 Hns)|].
    destruct Hc as (_&_&->&_&->&_). split.
    + apply outline_extent; assumption.
    + rewrite Hw2. change (border_width s0) with w.
      destruct (num_gtb w (Int 0)).
      * unfold num_neb in Hnz. apply negb_true_iff, num_eqb_false in Hnz.
        exact Hnz.
      * apply fabs_nonzero. exact Hnz.
  - destruct (Hout eq_refl) as [Hmax Hdiff].
    destruct (on_border_width_step (S fuel) s0 l Hinit Hl)
      as (s1 & r & Hc & Hg & Ho & Hl1 & _ & Hstep).
    rewrite Hstep. change (border_width s0) with w.
    change (max_width s0) with (max_width s). rewrite Hle.
    assert (Hgt : num_gtb w (max_width s) = true)
      by (unfold num_gtb; rewrite Hle; reflexivity).
    rewrite (gt_not_eqb _ _ Hgt).
    set (s3 := with_border_width (max_width s)
                 (alter_line (Line.with_width (max_width s)) s1)).
    destruct (alter_line_config (Line.with_width (max_width s)) s1)
      as (Hpx3&Hpy3&Hw3&_&Hb3&_).
    destruct (alter_line_graphics (Line.with_width (max_width s)) s1)
      as (Hi3&Hgr3).
    pose proof Hc as (Hpx1&Hpy1&Hw1&_&Hb1&_).
    cbn in Hpx1, Hpy1, Hw1, Hb1.
    pose proof Hg as (Hi1&_).
    assert (Hm3 : max_width s3 = max_width s).
    { unfold max_width. change (width s3)
        with (width (alter_line (Line.with_width (max_width s)) s1)).
      rewrite Hw3, Hw1. reflexivity. }
    assert (Hinit3 : _INIT_STATE s3 = true).
    { change (_INIT_STATE s3)
        with (_INIT_STATE (alter_line (Line.with_width (max_width s)) s1)).
      rewrite Hi3, Hi1. exact Hinit. }
    assert (Hl3 : border_line s3
                  = Some (Line.with_width (max_width s)
                            (Line.with_rectangle r l))).
    { change (border_line s3)
        with (border_line (alter_line (Line.with_width (max_width s)) s1)).
      rewrite border_line_alter, Hl1. reflexivity. }
    assert (Hns3 : ~ origin_in_sync s3).
    { pose proof (alter_line_sync (Line.with_width (max_width s)) s1 Ho)
        as [Hx2 Hy2].
      rewrite Hb3, Hb1 in Hx2, Hy2.
      apply (out_of_sync_by_offset
               (alter_line (Line.with_width (max_width s)) s1) w
               (max_width s) Hx2 Hy2).
      unfold offsets_differ. rewrite Hpx3, Hpy3, Hpx1, Hpy1. exact Hdiff. }
    assert (Hle3 : num_leb (border_width s3) (max_width s3) = true)
      by (rewrite Hm3; apply num_leb_refl).
    assert (Hnz3 : num_neb (border_width s3) (Int 0) = true).
    { change (border_width s3) with (max_width s). unfold num_neb.
      apply negb_true_iff. apply gt_not_eqb. exact Hmax. }
    destruct (on_border_width_in_range fuel s3 _ Hinit3 Hl3 Hle3 Hnz3)
      as (s2 & l2 & Hrun & Hc2 & Hg2 & _ & Hl2 & Hw2 & Hr2).
    exists s2, l2. split; [exact Hrun|].
    split.
    { eapply same_graphics_trans; [exact Hg|].
      eapply same_graphics_trans; [|exact Hg2].
      apply (alter_line_graphics (Line.with_width (max_width s)) s1). }
    split; [exact Hl2|]. split; [exact (Hr2 Hns3)|].
    destruct Hc2 as (_&_&->&_&->&_).
    change (border_width s3) with (max_width s) in *.
    change (width s3)
      with (width (alter_line (Line.with_width (max_width s)) s1)).
    rewrite Hw3, Hw1. split.
    + apply outline_extent; [exact Hpos|apply num_leb_refl|exact Hnz3].
    + rewrite Hw2, Hmax. apply num_eqb_false. apply gt_not_eqb. exact Hmax.
Qed.

(** ** Handlers on any constructed widget *)

Lemma on__border_origin_ok (s : BorderStyle) :
  constructed s ->
  exists s',
    on__border_origin s = Ok s' /\ same_config s s' /\
    _INIT_STATE s' = true /\
    _border_origin_x s' = _border_origin_x s /\
    _border_origin_y s' = _border_origin_y s.
Proof.
  intros [d Hd]. unfold on__border_origin.
  pose proof (update_borders_config s) as Hc.
  pose proof (update_borders_graphics s) as (Hi&_).
  destruct (update_borders_origin s) as [Hx Hy].
  destruct (_INIT_STATE (_update_borders s)) eqn:E.
  - eexists. split; [reflexivity|]. repeat (split; [assumption|]). assumption.
  - unfold _draw_border.
    change (cur_dash_style (with__INIT_STATE true (_update_borders s)))
      with (cur_dash_style (_update_borders s)).
    destruct Hc as (?&?&?&?&?&?&?&?&Hcd). rewrite Hcd, Hd.
    eexists. split; [reflexivity|]. cbn.
    unfold same_config. repeat split; try assumption.
Qed.

Lemma same_config_constructed (s s' : BorderStyle) :
  same_config s s' -> constructed s -> constructed s'.
Proof.
  intros (_&_&_&_&_&_&_&_&Hd) H. unfold constructed. rewrite Hd. exact H.
Qed.

Lemma set_border_origin_ok (s : BorderStyle) :
  constructed s ->
  exists s',
    set_border_origin s = Ok s' /\ same_config s s' /\ origin_in_sync s'.
Proof.
  intros Hcon. unfold set_border_origin, set__border_origin_x.
  destruct (num_eqb (_border_origin_x s) (py_add (pos_x s) (border_width s)))
    eqn:Ex.
  - cbn. unfold set__border_origin_y.
    destruct (num_eqb (_border_origin_y s)
                (py_add (pos_y s) (border_width s))) eqn:Ey.
    + exists s. split; [reflexivity|]. split; [apply same_config_refl|].
      apply num_eqb_true in Ex, Ey. split; assumption.
    + destruct (on__border_origin_ok
                  (with__border_origin_y
                     (py_add (pos_y s) (border_width s)) s) Hcon)
        as (s' & Hrun & Hc & _ & Hx & Hy).
      exists s'. split; [exact Hrun|]. split; [exact Hc|].
      pose proof Hc as (Hpx&Hpy&_&_&Hb&_). cbn in Hpx, Hpy, Hb, Hx, Hy.
      unfold origin_in_sync. rewrite Hx, Hy, Hpx, Hpy, Hb.
      apply num_eqb_true in Ex. split; [exact Ex|]. unfold num_eq.
      reflexivity.
  - destruct (on__border_origin_ok
                (with__border_origin_x
                   (py_add (pos_x s) (border_width s)) s) Hcon)
      as (s1 & Hrun & Hc & _ & Hx & Hy).
    rewrite Hrun. cbn [mbind result_bind].
    pose proof Hc as (Hpx&Hpy&_&_&Hb&_). cbn in Hpx, Hpy, Hb, Hx, Hy.
    assert (Hcon1 : constructed s1)
      by (eapply same_config_constructed; [exact Hc|exact Hcon]).
    unfold set__border_origin_y.
    destruct (num_eqb (_border_origin_y s1)
                (py_add (pos_y s1) (border_width s1))) eqn:Ey.
    + exists s1. split; [reflexivity|]. split; [exact Hc|].
      split; [|apply num_eqb_true; exact Ey].
      rewrite Hx, Hpx, Hb. unfold num_eq. reflexivity.
    + destruct (on__border_origin_ok
                  (with__border_origin_y
                     (py_add (pos_y s1) (border_width s1)) s1) Hcon1)
        as (s2 & Hrun2 & Hc2 & _ & Hx2 & Hy2).
      exists s2. split; [exact Hrun2|].
      split; [eapply same_config_trans; [exact Hc|exact Hc2]|].
      pose proof Hc2 as (Hpx2&Hpy2&_&_&Hb2&_).
      cbn in Hpx2, Hpy2, Hb2, Hx2, Hy2.
      unfold origin_in_sync. rewrite Hx2, Hy2, Hx, Hpx2, Hpy2, Hb2, Hpx, Hb.
      split; unfold num_eq; reflexivity.
Qed.

Lemma on_border_width_settled (fuel : nat) (s : BorderStyle) :
  constructed s ->
  num_leb (border_width s) (max_width s) = true ->
  exists s',
    on_border_width (S fuel) s = Ok s' /\ same_config s s' /\
    origin_in_sync s'.
Proof.
  intros Hcon Hle.
  destruct (set_border_origin_ok s Hcon) as (s1 & Hrun & Hc & Ho).
  cbn [on_border_width]. rewrite Hrun. cbn [mbind result_bind].
  pose proof Hc as (_&_&Hw&_&Hb&_).
  fold (max_width s1). unfold max_width. rewrite Hw, Hb.
  fold (max_width s). rewrite Hle.
  destruct (_border_lines s1).
  - destruct (num_gtb (border_width s) (Int 0));
      [|destruct (num_neb (border_width s) (Int 0))];
      (eexists; split; [reflexivity|];
       split; [eapply same_config_trans; [exact Hc|apply alter_line_config]
              |apply alter_line_sync; exact Ho]).
  - exists s1. split; [reflexivity|]. split; assumption.
Qed.

Lemma on_border_width_total (fuel : nat) (s : BorderStyle) :
  constructed s ->
  exists s',
    on_border_width (S (S fuel)) s = Ok s' /\
    pos_x s' = pos_x s /\ pos_y s' = pos_y s /\
    width s' = width s /\ height s' = height s /\
    constructed s' /\ origin_in_sync s'.
Proof.
  intros Hcon.
  destruct (num_leb (border_width s) (max_width s)) eqn:Hle.
  - destruct (on_border_width_settled (S fuel) s Hcon Hle)
      as (s' & Hrun & Hc & Ho).
    exists s'. split; [exact Hrun|].
    pose proof Hc as (?&?&?&?&_).
    repeat (split; [assumption|]).
    split; [eapply same_config_constructed; eassumption|exact Ho].
  - destruct (set_border_origin_ok s Hcon) as (s1 & Hrun & Hc & Ho).
    cbn [on_border_width]. rewrite Hrun. cbn [mbind result_bind].
    pose proof Hc as (Hpx&Hpy&Hw&Hh&Hb&_).
    unfold max_width in Hle |- *. rewrite Hw, Hb, Hle.
    destruct (_border_lines s1) eqn:Hl.
    + destruct (alter_line_config
                  (Line.with_width (py_div (width s) (Int 4))) s1)
        as (Hpx2&Hpy2&Hw2&Hh2&Hb2&Hrest).
      rewrite Hb2, Hb.
      destruct (num_eqb (border_width s) (py_div (width s) (Int 4))).
      * eexists. split; [reflexivity|]. rewrite Hpx2, Hpy2, Hw2, Hh2.
        repeat (split; [assumption|]). split.
        -- eapply same_config_constructed; [apply alter_line_config|].
           eapply same_config_constructed; eassumption.
        -- apply alter_line_sync. exact Ho.
      * set (s3 := with_border_width (py_div (width s) (Int 4))
                     (alter_line
                        (Line.with_width (py_div (width s) (Int 4))) s1)).
        assert (Hcon3 : constructed s3).
        { unfold constructed, s3. cbn.
          destruct Hrest as (_&_&_&->). destruct Hc as (_&_&_&_&_&_&_&_&->).
          exact Hcon. }
        assert (Hle3 : num_leb (border_width s3) (max_width s3) = true).
        { unfold max_width, s3. cbn. rewrite Hw2, Hw. apply num_leb_refl. }
        destruct (on_border_width_settled fuel s3 Hcon3 Hle3)
          as (s' & Hrun' & Hc' & Ho').
        exists s'. split; [exact Hrun'|].
        pose proof Hc' as (Hpx'&Hpy'&Hw'&Hh'&_).
        unfold s3 in Hpx', Hpy', Hw', Hh'. cbn in Hpx', Hpy', Hw', Hh'.
        rewrite Hpx', Hpy', Hw', Hh', Hpx2, Hpy2, Hw2, Hh2.
        repeat (split; [assumption|]).
        split; [eapply same_config_constructed; eassumption|exact Ho'].
    + exists s1. split; [reflexivity|]. repeat (split; [assumption|]).
      split; [eapply same_config_constructed; eassumption|exact Ho].
Qed.

Lemma store_eq (old new : num) : num_eq (store old new) new.
Proof.
  unfold store. destruct (num_eqb old new) eqn:E.
  - apply num_eqb_true. exact E.
  - unfold num_eq. reflexivity.
Qed.


(** C4, as amended: on a widget of non-negative width whose draw
    primitive exists, changing [border_width] to zero sets the rectangle
    of the line to [[0, 0, 0, 0]] and keeps the line in its place on the
    canvas.  Changing it afterwards to a non-zero [w] sets the rectangle of
    that same line to the outline again, of positive horizontal extent and
    non-zero stroke width, provided the assignment moves the origin: for
    [w] within the limit, [pos + w] differs from [pos + 0] on some axis;
    for [w] above [width / 4], which must then be positive,
    [pos + width / 4] differs from [pos + w] on some axis. *)
Theorem zero_width_hides_and_nonzero_shows
  (fuel : nat) (s : BorderStyle) (z w : num) :
  drawn s ->
  (0 <= num_val (width s))%Q ->
  num_eqb z (Int 0) = true ->
  num_eqb (border_width s) z = false ->
  num_neb w (Int 0) = true ->
  (num_leb w (max_width s) = true -> offsets_differ s z w) ->
  (num_leb w (max_width s) = false ->
   num_gtb (max_width s) (Int 0) = true /\
   offsets_differ s w (max_width s)) ->
  exists s1 l1 s2 l2,
    set_border_width (S (S fuel)) z s = Ok s1 /\
    same_graphics s s1 /\
    border_line s1 = Some l1 /\ Line.rectangle l1 = hidden /\
    set_border_width (S (S fuel)) w s1 = Ok s2 /\
    same_graphics s1 s2 /\
    border_line s2 = Some l2 /\ Line.rectangle l2 = outline s2 /\
    (0 < num_val (py_sub (width s2) (py_mul (Int 2) (border_width s2))))%Q /\
    ~ num_eq (Line.width l2) (Int 0).
Proof.
  intros Hd Hpos Hz Hchg Hnz Hin Hout.
  destruct (hide_border (S fuel) s z Hd Hpos Hz Hchg)
    as (s1 & l1 & Hrun1 & Hc1 & Hg1 & Ho1 & Hl1 & Hr1).
  pose proof Hc1 as (Hpx1&Hpy1&Hw1&_&Hb1&_). cbn in Hpx1, Hpy1, Hw1, Hb1.
  assert (Hd1 : drawn s1).
  { destruct Hd as [Hi _], Hg1 as (Hi1&_). split; [congruence|].
    rewrite Hl1. eauto. }
  assert (Hmax1 : max_width s1 = max_width s)
    by (unfold max_width; rewrite Hw1; reflexivity).
  assert (Hoff : forall a b, offsets_differ s a b -> offsets_differ s1 a b).
  { intros a b H. unfold offsets_differ. rewrite Hpx1, Hpy1. exact H. }
  destruct (show_border fuel s1 w Hd1 Ho1) as (s2 & l2 & Hrun2 & Hrest);
    [rewrite Hw1; exact Hpos | rewrite Hb1; exact Hz | exact Hnz
     | rewrite Hmax1, Hb1; intros H; apply Hoff, Hin, H
     | rewrite Hmax1; intros H; destruct (Hout H) as [H1 H2];
       split; [exact H1|apply Hoff; exact H2] |].
  exists s1, l1, s2, l2. repeat (split; [assumption|]). exact Hrest.
Qed.

(** ** The synchronisation sequence *)

Lemma draw_border_ok (s : BorderStyle) :
  constructed s ->
  exists s',
    _draw_border (with__INIT_STATE true s) = Ok s' /\ same_config s s' /\
    _INIT_STATE s' = true /\
    _border_origin_x s' = _border_origin_x s /\
    _border_origin_y s' = _border_origin_y s.
Proof.
  intros [d Hd]. unfold _draw_border. cbn. rewrite Hd.
  eexists. split; [reflexivity|]. cbn. unfold same_config.
  repeat split; try assumption.
Qed.

Lemma sync_at_rest (s : BorderStyle) :
  origin_in_sync s -> _INIT_STATE s = true ->
  num_eqb (border_width s) (Int 0) = true ->
  sync s = Ok s.
Proof.
  intros Ho Hi Hz. unfold sync, on_size, on_pos.
  rewrite (set_border_origin_stable s Ho). cbn [mbind result_bind].
  unfold set_pos.
  assert (Hx : num_eqb (pos_x s) (_border_origin_x s) = true).
  { destruct Ho as [Hx _]. apply num_eqb_true in Hz. apply num_eqb_true.
    unfold num_eq in *. rewrite Hx, num_val_add, Hz.
    change (num_val (Int 0)) with 0%Q. lra. }
  assert (Hy : num_eqb (pos_y s) (_border_origin_y s) = true).
  { destruct Ho as [_ Hy]. apply num_eqb_true in Hz. apply num_eqb_true.
    unfold num_eq in *. rewrite Hy, num_val_add, Hz.
    change (num_val (Int 0)) with 0%Q. lra. }
  rewrite Hx, Hy. cbn. rewrite Hi.
  apply (set_border_origin_stable s Ho).
Qed.

Lemma same_config_sync (s s' : BorderStyle) :
  same_config s s' ->
  _border_origin_x s' = _border_origin_x s ->
  _border_origin_y s' = _border_origin_y s ->
  origin_in_sync s -> origin_in_sync s'.
Proof.
  intros (Hpx&Hpy&_&_&Hb&_) Hx Hy [Ho1 Ho2]. unfold origin_in_sync.
  rewrite Hx, Hy, Hpx, Hpy, Hb. split; assumption.
Qed.

Lemma on_size_zero_width (s : BorderStyle) :
  constructed s -> num_eqb (border_width s) (Int 0) = true ->
  exists s',
    on_size s = Ok s' /\ same_config s s' /\ origin_in_sync s' /\
    _INIT_STATE s' = true.
Proof.
  intros Hcon Hz. unfold on_size.
  destruct (set_border_origin_ok s Hcon) as (s1 & Hrun & Hc & Ho).
  rewrite Hrun. cbn [mbind result_bind]. unfold set_pos.
  pose proof Hc as (_&_&_&_&Hb&_).
  assert (Hz1 : num_eq (border_width s1) (Int 0))
    by (rewrite Hb; apply num_eqb_true; exact Hz).
  assert (Hx : num_eqb (pos_x s1) (_border_origin_x s1) = true).
  { destruct Ho as [Hx _]. apply num_eqb_true.
    unfold num_eq in *. rewrite Hx, num_val_add, Hz1.
    change (num_val (Int 0)) with 0%Q. lra. }
  assert (Hy : num_eqb (pos_y s1) (_border_origin_y s1) = true).
  { destruct Ho as [_ Hy]. apply num_eqb_true.
    unfold num_eq in *. rewrite Hy, num_val_add, Hz1.
    change (num_val (Int 0)) with 0%Q. lra. }
  rewrite Hx, Hy. cbn [andb mbind result_bind].
  destruct (_INIT_STATE s1) eqn:Hi.
  - exists s1. split; [reflexivity|]. repeat (split; [assumption|]).
    assumption.
  - assert (Hcon1 : constructed s1)
      by (eapply same_config_constructed; eassumption).
    destruct (draw_border_ok s1 Hcon1) as (s2 & Hrun2 & Hc2 & Hi2 & Hx2 & Hy2).
    exists s2. split; [exact Hrun2|].
    split; [eapply same_config_trans; eassumption|].
    split; [eapply same_config_sync; eassumption|exact Hi2].
Qed.

(** C3, as amended: on a constructed widget whose [border_width] is zero,
    the synchronisation sequence runs without error and running it again
    on its result leaves the whole widget, and so the geometry, as it
    is. *)
Theorem sync_idempotent_at_zero_width (s : BorderStyle) :
  constructed s ->
  num_eqb (border_width s) (Int 0) = true ->
  exists s', sync s = Ok s' /\ sync s' = Ok s'.
Proof.
  intros Hcon Hz.
  destruct (on_size_zero_width s Hcon Hz) as (s' & Hrun & Hc & Ho & Hi).
  exists s'. unfold sync at 1. rewrite Hrun. cbn [mbind result_bind].
  unfold on_pos. rewrite (set_border_origin_stable s' Ho).
  split; [reflexivity|]. apply sync_at_rest; try assumption.
  destruct Hc as (_&_&_&_&Hb&_). rewrite Hb. exact Hz.
Qed.

(** ** At most one border *)

Lemma one_border_alter_line (f : Line.t -> Line.t) (s : BorderStyle) :
  one_border s -> one_border (alter_line f s).
Proof.
  intros [(Hi&Hc&Hbc&Hbl)|(Hi&Hbc&Hbl&c&l&Hc)]; unfold alter_line;
    rewrite Hbl.
  - left. repeat split; assumption.
  - right. cbn. repeat (split; [assumption|]). rewrite Hc. cbn. eauto.
Qed.

Lemma one_border_drawn (s : BorderStyle) :
  one_border s -> _INIT_STATE s = true -> drawn s.
Proof.
  intros [(Hi&_)|(_&_&Hbl&c&l&Hc)] Hinit; [congruence|].
  split; [exact Hinit|]. unfold border_line. rewrite Hbl, Hc. cbn. eauto.
Qed.

Lemma evolves_refl (s : BorderStyle) : invariant s -> evolves s s.
Proof. intros H. split; [exact H|]. intros _. apply same_graphics_refl. Qed.

Lemma evolves_trans (s1 s2 s3 : BorderStyle) :
  evolves s1 s2 -> evolves s2 s3 -> evolves s1 s3.
Proof.
  intros [_ H12] [H3 H23]. split; [exact H3|]. intros Hi.
  specialize (H12 Hi). pose proof H12 as (Hi2&_). rewrite Hi in Hi2.
  eapply same_graphics_trans; [exact H12|exact (H23 Hi2)].
Qed.

Lemma evolves_alter_line (f : Line.t -> Line.t) (s : BorderStyle) :
  invariant s -> evolves s (alter_line f s).
Proof.
  intros [Hob Hcon]. split.
  - split; [apply one_border_alter_line; exact Hob|].
    eapply same_config_constructed; [apply alter_line_config|exact Hcon].
  - intros _. apply alter_line_graphics.
Qed.

Lemma evolves_update_borders (s : BorderStyle) :
  invariant s -> evolves s (_update_borders s).
Proof.
  intros H. unfold _update_borders.
  destruct (_border_lines s); [apply evolves_alter_line|apply evolves_refl];
    exact H.
Qed.

Lemma evolves_draw_border (s s' : BorderStyle) :
  invariant s -> _INIT_STATE s = false ->
  _draw_border (with__INIT_STATE true s) = Ok s' ->
  evolves s s' /\ _INIT_STATE s' = true.
Proof.
  intros [[(Hi&Hc&Hbc&Hbl)|(Hi&_)] [d Hd]] Hinit; [|congruence].
  unfold _draw_border. cbn. rewrite Hd, Hc. cbn. intros [= <-].
  split; [|reflexivity]. split; [|congruence]. split.
  - right. cbn. repeat split. eauto.
  - unfold constructed. cbn. rewrite Hd. eauto.
Qed.

Lemma evolves_on_origin (s s' : BorderStyle) :
  invariant s -> on__border_origin s = Ok s' ->
  evolves s s' /\ _INIT_STATE s' = true.
Proof.
  intros Hinv. unfold on__border_origin.
  pose proof (evolves_update_borders s Hinv) as Hu.
  destruct (_INIT_STATE (_update_borders s)) eqn:Hi.
  - intros [= <-]. split; assumption.
  - intros Hrun. destruct Hu as [Hinv' _].
    destruct (evolves_draw_border _ _ Hinv' Hi Hrun) as [He Hi'].
    split; [|exact Hi']. split; [apply He|].
    intros Hinit. exfalso.
    destruct (update_borders_graphics s) as (Hiu&_). congruence.
Qed.

Lemma evolves_set_origin_x (v : num) (s s' : BorderStyle) :
  invariant s -> set__border_origin_x v s = Ok s' -> evolves s s'.
Proof.
  intros Hinv. unfold set__border_origin_x.
  destruct (num_eqb (_border_origin_x s) v).
  - intros [= <-]. apply evolves_refl. exact Hinv.
  - intros Hrun.
    apply (evolves_on_origin (with__border_origin_x v s) s' Hinv Hrun).
Qed.

Lemma evolves_set_origin_y (v : num) (s s' : BorderStyle) :
  invariant s -> set__border_origin_y v s = Ok s' -> evolves s s'.
Proof.
  intros Hinv. unfold set__border_origin_y.
  destruct (num_eqb (_border_origin_y s) v).
  - intros [= <-]. apply evolves_refl. exact Hinv.
  - intros Hrun.
    apply (evolves_on_origin (with__border_origin_y v s) s' Hinv Hrun).
Qed.

Lemma evolves_set_border_origin (s s' : BorderStyle) :
  invariant s -> set_border_origin s = Ok s' -> evolves s s'.
Proof.
  intros Hinv. unfold set_border_origin.
  destruct (set__border_origin_x (py_add (pos_x s) (border_width s)) s)
    as [s1|e] eqn:Hx; [|discriminate].
  cbn [mbind result_bind]. intros Hy.
  pose proof (evolves_set_origin_x _ _ _ Hinv Hx) as H1.
  eapply evolves_trans; [exact H1|].
  eapply evolves_set_origin_y; [apply H1|exact Hy].
Qed.

Lemma evolves_set_pos (x y : num) (s s' : BorderStyle) :
  invariant s -> set_pos x y s = Ok s' -> evolves s s'.
Proof.
  intros Hinv. unfold set_pos, on_pos.
  destruct (num_eqb (pos_x s) x && num_eqb (pos_y s) y).
  - intros [= <-]. apply evolves_refl. exact Hinv.
  - intros Hrun.
    apply (evolves_set_border_origin
             (with_pos_y (store (pos_y s) y)
                (with_pos_x (store (pos_x s) x) s)) s' Hinv Hrun).
Qed.

Lemma evolves_on_size (s s' : BorderStyle) :
  invariant s -> on_size s = Ok s' ->
  evolves s s' /\ _INIT_STATE s' = true.
Proof.
  intros Hinv. unfold on_size.
  destruct (set_border_origin s) as [s1|e] eqn:H1; [|discriminate].
  cbn [mbind result_bind].
  destruct (set_pos (_border_origin_x s1) (_border_origin_y s1) s1)
    as [s2|e] eqn:H2; [|discriminate].
  cbn [mbind result_bind].
  pose proof (evolves_set_border_origin _ _ Hinv H1) as E1.
  pose proof (evolves_set_pos _ _ _ _ (proj1 E1) H2) as E2.
  pose proof (evolves_trans _ _ _ E1 E2) as E12.
  destruct (_INIT_STATE s2) eqn:Hi.
  - intros [= <-]. split; assumption.
  - intros Hrun.
    destruct (evolves_draw_border _ _ (proj1 E2) Hi Hrun) as [E3 Hi3].
    split; [|exact Hi3]. eapply evolves_trans; eassumption.
Qed.

Lemma evolves_on_border_width (fuel : nat) :
  forall s s', invariant s -> on_border_width fuel s = Ok s' -> evolves s s'.
Proof.
  induction fuel as [|fuel IH]; intros s s' Hinv; [discriminate|].
  cbn [on_border_width].
  destruct (set_border_origin s) as [s1|e] eqn:H1; [|discriminate].
  cbn [mbind result_bind].
  pose proof (evolves_set_border_origin _ _ Hinv H1) as E1.
  pose proof (proj1 E1) as Hinv1.
  destruct (_border_lines s1); [|intros [= <-]; exact E1].
  destruct (num_leb (border_width s1) (py_div (width s1) (Int 4))).
  - destruct (num_gtb (border_width s1) (Int 0));
      [|destruct (num_neb (border_width s1) (Int 0))];
      intros [= <-];
      (eapply evolves_trans; [exact E1|apply evolves_alter_line; exact Hinv1]).
  - pose proof (evolves_alter_line
                  (Line.with_width (py_div (width s1) (Int 4))) s1 Hinv1)
      as E2.
    destruct (num_eqb _ _).
    + intros [= <-]. eapply evolves_trans; eassumption.
    + intros Hrun.
      eapply evolves_trans; [exact E1|].
      eapply evolves_trans; [exact E2|].
      apply (IH (with_border_width (py_div (width s1) (Int 4))
                   (alter_line
                      (Line.with_width (py_div (width s1) (Int 4))) s1))
               s' (proj1 E2) Hrun).
Qed.

Lemma evolves_set_border_width (fuel : nat) (v : num) (s s' : BorderStyle) :
  invariant s -> set_border_width fuel v s = Ok s' -> evolves s s'.
Proof.
  intros Hinv. unfold set_border_width.
  destruct (num_eqb (border_width s) v).
  - intros [= <-]. apply evolves_refl. exact Hinv.
  - apply (evolves_on_border_width fuel (with_border_width v s) s' Hinv).
Qed.

Lemma evolves_set_border_color (c : list num) (s : BorderStyle) :
  invariant s -> evolves s (set_border_color c s).
Proof.
  intros Hinv. unfold set_border_color.
  destruct (nums_eqb (border_color s) c); exact (evolves_refl s Hinv).
Qed.

Lemma evolves_on_borders (fuel : nat) (v : num * string * list num)
  (s s' : BorderStyle) :
  invariant s -> on_borders fuel v s = Ok s' -> evolves s s'.
Proof.
  intros Hinv. destruct v as [[w style] color]. unfold on_borders.
  destruct (set_border_width fuel w s) as [s1|e] eqn:H1; [|discriminate].
  cbn [mbind result_bind].
  pose proof (evolves_set_border_width _ _ _ _ Hinv H1) as E1.
  destruct (dash_style_of style) as [d|e]; [|discriminate].
  cbn [mbind result_bind]. intros Hrun.
  eapply evolves_trans; [exact E1|].
  pose proof (evolves_set_border_color color
                (with_border_style (Some style) s1) (proj1 E1)) as E2.
  eapply evolves_trans; [exact E2|].
  refine (evolves_set_border_origin _ s' _ Hrun).
  destruct E2 as [[Hob _] _]. split; [exact Hob|].
  unfold constructed. cbn. eauto.
Qed.

Lemma evolves_dispatch (fuel : nat) (e : Event) (s s' : BorderStyle) :
  invariant s -> dispatch fuel e s = Ok s' -> evolves s s'.
Proof.
  intros Hinv. destruct e; cbn [dispatch].
  - apply evolves_set_pos. exact Hinv.
  - unfold set_size.
    destruct (num_eqb (width s) w && num_eqb (height s) h).
    + intros [= <-]. apply evolves_refl. exact Hinv.
    + intros Hrun.
      apply (evolves_on_size
               (with_height (store (height s) h)
                  (with_width (store (width s) w) s)) s' Hinv Hrun).
  - apply evolves_set_border_width. exact Hinv.
  - intros [= <-]. apply evolves_set_border_color. exact Hinv.
  - unfold set_borders. destruct (borders_eqb (borders s) v).
    + intros [= <-]. apply evolves_refl. exact Hinv.
    + apply (evolves_on_borders fuel v (with_borders (Some v) s) s' Hinv).
  - apply evolves_set_border_origin. exact Hinv.
  - intros Hrun. apply (evolves_on_size s s' Hinv Hrun).
  - intros Hrun. apply (evolves_on_origin s s' Hinv Hrun).
  - apply evolves_on_border_width. exact Hinv.
  - apply evolves_on_borders. exact Hinv.
Qed.

Lemma evolves_run (fuel : nat) (es : list Event) :
  forall s s', invariant s -> run fuel es s = Ok s' -> evolves s s'.
Proof.
  induction es as [|e es IH]; intros s s' Hinv; cbn [run].
  - intros [= <-]. apply evolves_refl. exact Hinv.
  - destruct (dispatch fuel e s) as [s1|x] eqn:H1; [|discriminate].
    cbn [mbind result_bind]. intros Hrun.
    pose proof (evolves_dispatch _ _ _ _ Hinv H1) as E1.
    eapply evolves_trans; [exact E1|]. apply IH; [apply E1|exact Hrun].
Qed.

(** ** Construction *)

(** Before line 95 nothing can be drawn: a handler that reaches
    [_draw_border] raises, so one that returns has changed nothing. *)
Lemma set_border_origin_bare (s s' : BorderStyle) :
  undrawn s -> cur_dash_style s = None ->
  set_border_origin s = Ok s' -> s' = s.
Proof.
  intros (Hi&Hc&Hbc&Hbl) Hd.
  assert (Hraise : forall t, _INIT_STATE t = false -> _border_lines t = None ->
                             cur_dash_style t = None ->
                             forall t', on__border_origin t <> Ok t').
  { intros t Hti Htl Htd t'. unfold on__border_origin, _update_borders.
    rewrite Htl, Hti. unfold _draw_border. cbn. rewrite Htd. discriminate. }
  unfold set_border_origin, set__border_origin_x.
  destruct (num_eqb (_border_origin_x s) (py_add (pos_x s) (border_width s))).
  - cbn [mbind result_bind]. unfold set__border_origin_y.
    destruct (num_eqb (_border_origin_y s)
                (py_add (pos_y s) (border_width s))).
    + intros [= <-]. reflexivity.
    + intros Hrun. exfalso. revert Hrun. apply Hraise; assumption.
  - destruct (on__border_origin _) as [s1|e] eqn:Hrun; [|discriminate].
    exfalso. revert Hrun. apply Hraise; assumption.
Qed.

Lemma on_border_width_bare (fuel : nat) (s s' : BorderStyle) :
  undrawn s -> cur_dash_style s = None ->
  on_border_width fuel s = Ok s' -> s' = s.
Proof.
  intros Hu Hd. destruct fuel as [|fuel]; [discriminate|].
  cbn [on_border_width].
  destruct (set_border_origin s) as [s1|e] eqn:H1; [|discriminate].
  apply (set_border_origin_bare s s1 Hu Hd) in H1. subst s1.
  cbn [mbind result_bind]. destruct Hu as (_&_&_&Hbl). rewrite Hbl.
  intros [= <-]. reflexivity.
Qed.

Lemma set_border_width_bare (fuel : nat) (v : num) (s s' : BorderStyle) :
  undrawn s -> cur_dash_style s = None ->
  set_border_width fuel v s = Ok s' ->
  undrawn s' /\ cur_dash_style s' = None.
Proof.
  intros Hu Hd. unfold set_border_width. destruct (num_eqb _ _).
  - intros [= <-]. split; assumption.
  - intros Hrun.
    apply (on_border_width_bare fuel (with_border_width v s) s' Hu Hd)
      in Hrun.
    subst s'. split; assumption.
Qed.

(** Whatever the host constructor hands to line 91 has nothing drawn and
    no [cur_dash_style]. *)
Lemma host_bare (fuel : nat) (x y w h : num) (kwargs : Kwargs)
  (s : BorderStyle) :
  Widget__init__ fuel x y w h kwargs = Ok s ->
  undrawn s /\ cur_dash_style s = None.
Proof.
  unfold Widget__init__.
  assert (H0 : undrawn (class_defaults x y w h)
               /\ cur_dash_style (class_defaults x y w h) = None)
    by (repeat split).
  destruct (kw_border_width kwargs) as [v|].
  - destruct (set_border_width fuel v (class_defaults x y w h))
      as [s1|e] eqn:H1; [|discriminate].
    destruct (set_border_width_bare _ _ _ _ (proj1 H0) (proj2 H0) H1)
      as [Hu Hd].
    cbn [mbind result_bind]. intros [= <-].
    destruct (kw_border_color kwargs); [|split; assumption].
    unfold set_border_color. destruct (nums_eqb _ _); split; assumption.
  - cbn [mbind result_bind]. intros [= <-].
    destruct (kw_border_color kwargs); [|exact H0].
    unfold set_border_color. destruct (nums_eqb _ _); exact H0.
Qed.

Lemma init_undrawn (fuel : nat) (x y w h : num) (kwargs : Kwargs)
  (s : BorderStyle) :
  __init__ fuel x y w h kwargs = Ok s -> undrawn s /\ constructed s.
Proof.
  unfold __init__.
  destruct (Widget__init__ fuel x y w h kwargs) as [s0|e] eqn:H0;
    [|discriminate].
  destruct (host_bare _ _ _ _ _ _ _ H0) as [Hu0 Hd0].
  cbn [mbind result_bind].
  destruct (set_border_width fuel _ s0) as [s1|e] eqn:H1; [|discriminate].
  destruct (set_border_width_bare _ _ _ _ Hu0 Hd0 H1) as [Hu1 _].
  cbn [mbind result_bind].
  destruct (dash_style_of _) as [d|e]; [|discriminate].
  cbn [mbind result_bind]. intros [= <-].
  unfold set_border_color. destruct (nums_eqb _ _); split;
    solve [exact Hu1 | unfold constructed; cbn; eauto].
Qed.

Lemma undrawn_invariant (s : BorderStyle) :
  undrawn s -> constructed s -> invariant s.
Proof. intros Hu Hc. split; [left; exact Hu|exact Hc]. Qed.

Lemma on_size_ok (s : BorderStyle) :
  constructed s -> exists s', on_size s = Ok s'.
Proof.
  intros Hcon. unfold on_size.
  destruct (set_border_origin_ok s Hcon) as (s1 & H1 & Hc1 & _).
  rewrite H1. cbn [mbind result_bind].
  assert (Hcon1 : constructed s1)
    by (eapply same_config_constructed; eassumption).
  assert (exists s2, set_pos (_border_origin_x s1) (_border_origin_y s1) s1
                     = Ok s2 /\ constructed s2) as (s2 & H2 & Hcon2).
  { unfold set_pos, on_pos. destruct (_ && _); [eauto|].
    destruct (set_border_origin_ok
                (with_pos_y (store (pos_y s1) (_border_origin_y s1))
                   (with_pos_x (store (pos_x s1) (_border_origin_x s1)) s1))
                Hcon1) as (s2 & H2 & Hc2 & _).
    exists s2. split; [exact H2|].
    eapply same_config_constructed; [exact Hc2|exact Hcon1]. }
  rewrite H2. cbn [mbind result_bind].
  destruct (_INIT_STATE s2); [eauto|].
  destruct (draw_border_ok s2 Hcon2) as (s3 & H3 & _). eauto.
Qed.

Lemma first_layout_draws (s : BorderStyle) :
  invariant s ->
  (exists s', on_size s = Ok s' /\ drawn s') /\
  (exists s', on__border_origin s = Ok s' /\ drawn s').
Proof.
  intros Hinv. split.
  - destruct (on_size_ok s (proj2 Hinv)) as [s' Hrun].
    exists s'. split; [exact Hrun|].
    destruct (evolves_on_size s s' Hinv Hrun) as [[[Hob _] _] Hi].
    apply one_border_drawn; assumption.
  - destruct (on__border_origin_ok s (proj2 Hinv)) as (s' & Hrun & _).
    exists s'. split; [exact Hrun|].
    destruct (evolves_on_origin s s' Hinv Hrun) as [[[Hob _] _] Hi].
    apply one_border_drawn; assumption.
Qed.

(** C7: construction without arguments gives [border_width = 1.0],
    [border_style = 'solid'] and a [border_color] of four ones, with nothing
    on the canvas and no line or colour instruction bound; the size
    handler and the origin handler each create the primitive. *)
Theorem default_construction (fuel : nat) (x y w h : num) :
  exists s,
    __init__ fuel x y w h (mkKwargs None None None) = Ok s /\
    border_width s = Float 1 /\
    border_style s = Some "solid" /\
    border_color s = [Int 1; Int 1; Int 1; Int 1] /\
    undrawn s /\ border_line s = None /\
    (exists s', on_size s = Ok s' /\ drawn s') /\
    (exists s', on__border_origin s = Ok s' /\ drawn s').
Proof.
  eexists. split; [reflexivity|]. cbn.
  repeat (split; [reflexivity|]).
  split; [repeat split|]. split; [reflexivity|].
  apply first_layout_draws. apply undrawn_invariant.
  - repeat split.
  - unfold constructed. cbn. eauto.
Qed.

(** C8: from construction on, through any events, the canvas holds no
    border or exactly one colour and one line.  Nothing is drawn by the
    constructor; the size handler and the origin handler create the
    primitive on a widget that has none; and once it exists every event
    keeps the same instructions at the same places of the canvas. *)
Theorem one_border_for_life (fuel : nat) (x y w h : num) (kwargs : Kwargs)
  (es : list Event) (s0 s : BorderStyle) :
  __init__ fuel x y w h kwargs = Ok s0 ->
  run fuel es s0 = Ok s ->
  undrawn s0 /\
  (exists s', on_size s0 = Ok s' /\ drawn s') /\
  (exists s', on__border_origin s0 = Ok s' /\ drawn s') /\
  one_border s /\
  (forall e s', drawn s -> dispatch fuel e s = Ok s' ->
                drawn s' /\ same_graphics s s').
Proof.
  intros Hinit Hrun.
  destruct (init_undrawn _ _ _ _ _ _ _ Hinit) as [Hu Hcon].
  pose proof (undrawn_invariant s0 Hu Hcon) as Hinv0.
  destruct (first_layout_draws s0 Hinv0) as [Hsz Hor].
  pose proof (evolves_run fuel es s0 s Hinv0 Hrun) as [Hinv _].
  repeat (split; [assumption|]). split; [apply Hinv|].
  intros e s' [Hi Hl] He.
  destruct (evolves_dispatch fuel e s s' Hinv He) as [[Hob' _] Hg].
  specialize (Hg Hi). split; [|exact Hg].
  apply one_border_drawn; [exact Hob'|].
  destruct Hg as (Hi'&_). congruence.
Qed.

(** ** Styles and the aggregate *)

Lemma unknown_style (style : string) :
  style <> "solid" -> style <> "dashed" -> style <> "dotted" ->
  dash_style_of style = Err (KeyError style).
Proof.
  intros H1 H2 H3. unfold dash_style_of, _dash_styles.
  rewrite !lookup_insert_ne by congruence. rewrite lookup_empty.
  reflexivity.
Qed.

Lemma set_border_width_ok (fuel : nat) (v : num) (s : BorderStyle) :
  constructed s ->
  exists s', set_border_width (S (S fuel)) v s = Ok s' /\ constructed s'.
Proof.
  intros Hcon. unfold set_border_width.
  destruct (num_eqb (border_width s) v); [eauto|].
  destruct (on_border_width_total fuel (with_border_width v s) Hcon)
    as (s' & Hrun & _ & _ & _ & _ & Hcon' & _). eauto.
Qed.

(** C9, as amended: a style outside 'solid', 'dashed' and 'dotted' makes
    the lookup in [_dash_styles] raise [KeyError], at construction when the
    style is not the empty string (and [border_width] is not passed), and
    on every change of the [borders] aggregate of a constructed widget. *)
Theorem unknown_style_raises (fuel : nat) (style : string) :
  style <> "solid" -> style <> "dashed" -> style <> "dotted" ->
  (style <> "" ->
   forall x y w h color,
     __init__ fuel x y w h (mkKwargs None (Some style) color)
     = Err (KeyError style))
  /\
  (forall s w color,
      constructed s ->
      borders_eqb (borders s) (w, style, color) = false ->
      set_borders (S (S fuel)) (w, style, color) s = Err (KeyError style)).
Proof.
  intros H1 H2 H3. split.
  - intros Hne x y w h color. unfold __init__, Widget__init__.
    cbn [kw_border_width kw_border_style kw_border_color mbind result_bind
         num_or str_or].
    set (s0 := match color with
               | Some c => set_border_color c (class_defaults x y w h)
               | None => class_defaults x y w h
               end).
    assert (Hb : border_width s0 = Float 1).
    { unfold s0. destruct color; [|reflexivity].
      unfold set_border_color. destruct (nums_eqb _ _); reflexivity. }
    unfold set_border_width. rewrite Hb.
    change (num_eqb (Float 1) (Float 1)) with true.
    cbn [mbind result_bind].
    destruct (String.eqb style "") eqn:E.
    + apply String.eqb_eq in E. contradiction.
    + rewrite (unknown_style style H1 H2 H3). reflexivity.
  - intros s w color Hcon Hchg. unfold set_borders. rewrite Hchg.
    unfold on_borders.
    destruct (set_border_width_ok fuel w (with_borders (Some (w, style, color)) s)
                Hcon) as (s1 & Hrun & _).
    rewrite Hrun. cbn [mbind result_bind].
    rewrite (unknown_style style H1 H2 H3). reflexivity.
Qed.

(** A handler that has to draw before line 95 raises. *)
Lemma set_border_origin_raises (s : BorderStyle) :
  _INIT_STATE s = false -> _border_lines s = None ->
  cur_dash_style s = None ->
  num_eqb (_border_origin_x s) (py_add (pos_x s) (border_width s))
  && num_eqb (_border_origin_y s) (py_add (pos_y s) (border_width s))
  = false ->
  set_border_origin s = Err (AttributeError "cur_dash_style").
Proof.
  intros Hi Hl Hd Hmove.
  assert (Hraise : forall t, _INIT_STATE t = false -> _border_lines t = None ->
                             cur_dash_style t = None ->
                             on__border_origin t
                             = Err (AttributeError "cur_dash_style")).
  { intros t Hti Htl Htd. unfold on__border_origin, _update_borders.
    rewrite Htl, Hti. unfold _draw_border. cbn. rewrite Htd. reflexivity. }
  unfold set_border_origin, set__border_origin_x.
  destruct (num_eqb (_border_origin_x s)
              (py_add (pos_x s) (border_width s))) eqn:Ex.
  - cbn [mbind result_bind]. unfold set__border_origin_y.
    cbn [andb] in Hmove. rewrite Hmove. apply Hraise; assumption.
  - rewrite Hraise by assumption. reflexivity.
Qed.

Lemma on_border_width_raises (fuel : nat) (s : BorderStyle) :
  _INIT_STATE s = false -> _border_lines s = None ->
  cur_dash_style s = None ->
  num_eqb (_border_origin_x s) (py_add (pos_x s) (border_width s))
  && num_eqb (_border_origin_y s) (py_add (pos_y s) (border_width s))
  = false ->
  on_border_width (S fuel) s = Err (AttributeError "cur_dash_style").
Proof.
  intros Hi Hl Hd Hmove. cbn [on_border_width].
  rewrite (set_border_origin_raises s Hi Hl Hd Hmove). reflexivity.
Qed.

Lemma falsy_is_zero (v : num) :
  num_truthy v = false -> (num_val v == 0)%Q.
Proof.
  unfold num_truthy, num_neb. intros H. apply negb_false_iff in H.
  apply num_eqb_true in H. exact H.
Qed.

(** C10: the constructor does not get as far as the claim says.  Line 90
    hands a falsy [border_width] to the host, which stores it; line 92
    then assigns the default [1.0], a change, so the width handler runs,
    moves the origin and has the border drawn before line 95 has set
    [cur_dash_style]: whatever the geometry, the constructor raises
    [AttributeError] and no widget with [border_width = 1.0] is returned. *)
Theorem falsy_border_width_raises (fuel : nat) (x y w h v : num)
  (style : option string) (color : option (list num)) :
  num_truthy v = false ->
  __init__ (S fuel) x y w h (mkKwargs (Some v) style color)
  = Err (AttributeError "cur_dash_style").
Proof.
  intros Hf. pose proof (falsy_is_zero v Hf) as Hz.
  assert (Hne : num_eqb (Float 1) v = false).
  { apply num_eqb_false. unfold num_eq. rewrite Hz. cbn. lra. }
  unfold __init__, Widget__init__.
  cbn [kw_border_width kw_border_style kw_border_color num_or].
  rewrite Hf.
  set (s0 := with_border_width v (class_defaults x y w h)).
  assert (Hset : set_border_width (S fuel) v (class_defaults x y w h)
                 = on_border_width (S fuel) s0).
  { unfold set_border_width.
    change (border_width (class_defaults x y w h)) with (Float 1).
    rewrite Hne. reflexivity. }
  rewrite Hset.
  destruct (num_eqb (_border_origin_x s0) (py_add (pos_x s0) (border_width s0))
            && num_eqb (_border_origin_y s0)
                 (py_add (pos_y s0) (border_width s0))) eqn:Hmove.
  - apply andb_true_iff in Hmove. destruct Hmove as [Ex Ey].
    apply num_eqb_true in Ex, Ey.
    assert (Hrun : on_border_width (S fuel) s0 = Ok s0).
    { cbn [on_border_width].
      rewrite (set_border_origin_stable s0 (conj Ex Ey)). reflexivity. }
    rewrite Hrun. cbn [mbind result_bind].
    set (s1 := match color with
               | Some c => set_border_color c s0
               | None => s0
               end).
    assert (Hs1 : _INIT_STATE s1 = false /\ _border_lines s1 = None /\
                  cur_dash_style s1 = None /\ border_width s1 = v /\
                  pos_x s1 = x /\ _border_origin_x s1 = Float 0).
    { unfold s1. destruct color; [|repeat split].
      unfold set_border_color. destruct (nums_eqb _ _); repeat split. }
    destruct Hs1 as (Hi & Hl & Hd & Hb & Hpx & Hox).
    unfold set_border_width. rewrite Hb.
    assert (Hne' : num_eqb v (Float 1) = false)
      by (rewrite num_eqb_sym; exact Hne).
    rewrite Hne'.
    rewrite on_border_width_raises; [reflexivity|exact Hi|exact Hl|exact Hd|].
    cbn [_border_origin_x pos_x border_width with_border_width].
    rewrite Hox, Hpx.
    assert (E : num_eqb (Float 0) (py_add x (Float 1)) = false).
    { apply num_eqb_false. unfold num_eq in *.
      change (_border_origin_x s0) with (Float 0) in Ex.
      change (pos_x s0) with x in Ex. change (border_width s0) with v in Ex.
      rewrite num_val_add in Ex |- *. rewrite Hz in Ex. cbn in *. lra. }
    rewrite E. reflexivity.
  - rewrite on_border_width_raises;
      [reflexivity|reflexivity|reflexivity|reflexivity|exact Hmove].
Qed.

Lemma nums_eqb_refl (l : list num) : nums_eqb l l = true.
Proof.
  induction l as [|a l IH]; [reflexivity|]. cbn.
  rewrite num_eqb_refl. exact IH.
Qed.

Lemma set_border_color_eq (c : list num) (s : BorderStyle) :
  nums_eqb (border_color (set_border_color c s)) c = true.
Proof.
  unfold set_border_color. destruct (nums_eqb (border_color s) c) eqn:E.
  - exact E.
  - apply nums_eqb_refl.
Qed.

Lemma set_border_width_in_range (fuel : nat) (v : num) (s : BorderStyle) :
  constructed s -> num_leb v (max_width s) = true ->
  exists s',
    set_border_width (S fuel) v s = Ok s' /\ constructed s' /\
    num_eq (border_width s') v.
Proof.
  intros Hcon Hle. unfold set_border_width.
  destruct (num_eqb (border_width s) v) eqn:E.
  - exists s. split; [reflexivity|]. split; [exact Hcon|].
    apply num_eqb_true. exact E.
  - destruct (on_border_width_settled fuel (with_border_width v s) Hcon Hle)
      as (s' & Hrun & Hc & _).
    exists s'. split; [exact Hrun|].
    split; [eapply same_config_constructed; [exact Hc|exact Hcon]|].
    destruct Hc as (_&_&_&_&Hb&_). rewrite Hb. unfold num_eq. reflexivity.
Qed.

(** C6, as amended: on a constructed widget, a change of [borders] to
    [(w, style, color)] with a known style and a [w] that is not greater
    than [width / 4] is read back from the three fields in that order:
    [border_width] equal to [w], [border_style] the style, [border_color]
    equal to the colour, and the dash parameters are those of the style. *)
Theorem borders_decomposed (fuel : nat) (s : BorderStyle)
  (w : num) (style : string) (color : list num) (d : DashStyle) :
  constructed s ->
  _dash_styles !! style = Some d ->
  num_leb w (max_width s) = true ->
  borders_eqb (borders s) (w, style, color) = false ->
  exists s',
    set_borders (S fuel) (w, style, color) s = Ok s' /\
    borders s' = Some (w, style, color) /\
    num_eq (border_width s') w /\
    border_style s' = Some style /\
    nums_eqb (border_color s') color = true /\
    cur_dash_style s' = Some d.
Proof.
  intros Hcon Hd Hle Hchg. unfold set_borders. rewrite Hchg.
  unfold on_borders.
  destruct (set_border_width_in_range fuel w
              (with_borders (Some (w, style, color)) s) Hcon Hle)
    as (s1 & Hrun & Hcon1 & Hb1).
  rewrite Hrun. cbn [mbind result_bind].
  unfold dash_style_of. rewrite Hd. cbn [mbind result_bind].
  set (s2 := with_cur_dash_style (Some d)
               (set_border_color color
                  (with_border_style (Some style) s1))).
  assert (Hcon2 : constructed s2) by (unfold constructed; cbn; eauto).
  destruct (set_border_origin_ok s2 Hcon2) as (s' & Hrun' & Hc & _).
  exists s'. split; [exact Hrun'|].
  destruct Hc as (_&_&_&_&Hb&Hst&Hco&Hbs&Hcd).
  rewrite Hb, Hst, Hco, Hbs, Hcd.
  assert (Hfields : borders s2 = borders s1 /\
                    border_width s2 = border_width s1 /\
                    border_style s2 = Some style).
  { unfold s2, set_border_color. destruct (nums_eqb _ _); repeat split. }
  destruct Hfields as (-> & -> & ->).
  split.
  { revert Hrun. unfold set_border_width.
    destruct (num_eqb _ _).
    - intros [= <-]. reflexivity.
    - intros Hr.
      destruct (on_border_width_settled fuel
                  (with_border_width w
                     (with_borders (Some (w, style, color)) s)) Hcon Hle)
        as (s1' & Hr' & Hc' & _).
      rewrite Hr in Hr'. injection Hr' as <-.
      destruct Hc' as (_&_&_&_&_&_&_&Hbs'&_). exact Hbs'. }
  split; [exact Hb1|]. split; [reflexivity|].
  split; [|reflexivity].
  apply (set_border_color_eq color (with_border_style (Some style) s1)).
Qed.

(** ** The concrete widgets are reached from the constructor *)

Lemma fresh_label_constructed :
  __init__ 2 (Int 0) (Int 0) (Int 100) (Int 100) no_kwargs = Ok fresh_label.
Proof. reflexivity. Qed.

Lemma demo_label_reached : run 2 [OnSize] fresh_label = Ok demo_label.
Proof. reflexivity. Qed.

Lemma flipped_label_reached :
  run 2 [SetSize (Int (-4)) (Int 8)] fresh_label = Ok flipped_label.
Proof. reflexivity. Qed.

Lemma demo_label_drawn : drawn demo_label.
Proof. split; [reflexivity|]. eexists. reflexivity. Defined.

Lemma flipped_label_drawn : drawn flipped_label.
Proof. split; [reflexivity|]. eexists. reflexivity. Defined.

Lemma fresh_label_is_constructed : constructed fresh_label.
Proof. eexists. reflexivity. Defined.

Lemma demo_label_is_constructed : constructed demo_label.
Proof. eexists. reflexivity. Defined.

Lemma borderless_label_reached :
  run 2 [SetBorderWidth (Int 0)] fresh_label = Ok borderless_label.
Proof. reflexivity. Qed.

(** ** Instances and counterexamples *)

(** C1, as stated, fails on a widget of negative width: [width / 4] is
    [-1], the field is clamped to it, and the nested activation then sets
    the stroke width to [fabs(-1) = 1.0]. *)
Lemma border_width_clamped_counterexample :
  drawn flipped_label /\
  num_gtb (Int 5) (max_width flipped_label) = true /\
  exists s' l',
    set_border_width 2 (Int 5) flipped_label = Ok s' /\
    border_line s' = Some l' /\
    ~ num_eq (Line.width l') (max_width flipped_label).
Proof.
  split; [exact flipped_label_drawn|]. split; [reflexivity|].
  eexists _, _. split; [vm_compute; reflexivity|].
  split; [vm_compute; reflexivity|].
  vm_compute. discriminate.
Qed.

Lemma border_width_clamped_witness :
  drawn demo_label /\
  exists s' l',
    set_border_width 2 (Int 30) demo_label = Ok s' /\
    border_width s' = Int 25 /\
    border_line s' = Some l' /\ Line.width l' = Int 25 /\
    same_graphics demo_label s'.
Proof.
  split; [exact demo_label_drawn|].
  apply (border_width_clamped 0 demo_label (Int 30));
    [exact demo_label_drawn | vm_compute; discriminate
     | reflexivity | reflexivity].
Defined.

(** C3, as stated, fails whenever the border width is not zero: every
    run of the size handler moves the widget, and the outline with it, by
    the border width. *)
Lemma sync_counterexample :
  exists s1 s2 l1 l2,
    sync demo_label = Ok s1 /\ sync s1 = Ok s2 /\
    width s2 = width s1 /\ height s2 = height s1 /\
    border_line s1 = Some l1 /\ border_line s2 = Some l2 /\
    ~ num_eq (pos_x s2) (pos_x s1) /\
    Line.rectangle l2 <> Line.rectangle l1.
Proof.
  eexists _, _, _, _. split; [vm_compute; reflexivity|].
  split; [vm_compute; reflexivity|].
  split; [reflexivity|]. split; [reflexivity|].
  split; [vm_compute; reflexivity|]. split; [vm_compute; reflexivity|].
  split; [vm_compute; discriminate|]. vm_compute. discriminate.
Qed.

Lemma sync_idempotent_at_zero_width_witness :
  constructed borderless_label /\
  exists s', sync borderless_label = Ok s' /\ sync s' = Ok s'.
Proof.
  assert (H : constructed borderless_label) by (eexists; reflexivity).
  split; [exact H|].
  apply (sync_idempotent_at_zero_width borderless_label H). reflexivity.
Defined.

(** C4, as stated, fails on a widget of negative width: zero is then
    above [width / 4], so the width is clamped instead and the rectangle
    stays an outline. *)
Lemma zero_width_counterexample :
  drawn flipped_label /\
  exists s' l',
    set_border_width 2 (Int 0) flipped_label = Ok s' /\
    border_line s' = Some l' /\
    Line.rectangle l' = [Float 0; Float 0; Int (-2); Int 10] /\
    Line.rectangle l' <> hidden.
Proof.
  split; [exact flipped_label_drawn|].
  eexists _, _. split; [vm_compute; reflexivity|].
  split; [vm_compute; reflexivity|].
  split; [reflexivity|]. vm_compute. discriminate.
Qed.

Lemma zero_width_hides_and_nonzero_shows_witness :
  drawn demo_label /\ offsets_differ demo_label (Int 0) (Int 5) /\
  exists s1 l1 s2 l2,
    set_border_width 2 (Int 0) demo_label = Ok s1 /\
    same_graphics demo_label s1 /\
    border_line s1 = Some l1 /\ Line.rectangle l1 = hidden /\
    set_border_width 2 (Int 5) s1 = Ok s2 /\
    same_graphics s1 s2 /\
    border_line s2 = Some l2 /\ Line.rectangle l2 = outline s2 /\
    (0 < num_val (py_sub (width s2) (py_mul (Int 2) (border_width s2))))%Q /\
    ~ num_eq (Line.width l2) (Int 0).
Proof.
  split; [exact demo_label_drawn|]. split; [reflexivity|].
  apply (zero_width_hides_and_nonzero_shows 0 demo_label (Int 0) (Int 5));
    [exact demo_label_drawn | vm_compute; discriminate | reflexivity
     | reflexivity | reflexivity | intros _; reflexivity
     | intros H; vm_compute in H; discriminate H].
Defined.

(** C5, as stated, fails on a widget of negative width for a negative [w]
    above [width / 4]: the width is clamped to [-1], so the stroke width
    is [1.0] and the origin is offset by [-1], not by [w]. *)
Lemma negative_border_width_counterexample :
  drawn flipped_label /\
  num_gtb (Int 0) (Float (-1 # 2)) = true /\
  exists s' l',
    set_border_width 2 (Float (-1 # 2)) flipped_label = Ok s' /\
    border_line s' = Some l' /\
    ~ num_eq (Line.width l') (fabs (Float (-1 # 2))) /\
    ~ num_eq (_border_origin_x s') (py_add (pos_x s') (Float (-1 # 2))).
Proof.
  split; [exact flipped_label_drawn|]. split; [reflexivity|].
  eexists _, _. split; [vm_compute; reflexivity|].
  split; [vm_compute; reflexivity|].
  split; vm_compute; discriminate.
Qed.

Lemma negative_border_width_witness :
  drawn demo_label /\
  exists s' l',
    set_border_width 1 (Int (-3)) demo_label = Ok s' /\
    border_width s' = Int (-3) /\
    border_line s' = Some l' /\ Line.width l' = fabs (Int (-3)) /\
    pos_x s' = pos_x demo_label /\ pos_y s' = pos_y demo_label /\
    num_eq (_border_origin_x s') (py_add (pos_x demo_label) (Int (-3))) /\
    num_eq (_border_origin_y s') (py_add (pos_y demo_label) (Int (-3))).
Proof.
  split; [exact demo_label_drawn|].
  apply (negative_border_width 0 demo_label (Int (-3)));
    [exact demo_label_drawn | reflexivity | reflexivity | reflexivity].
Defined.


(** C6, as stated, fails on a narrow widget: on one of width 8 the width
    5 of the aggregate is clamped, and [border_width] reads back as 2. *)
Lemma borders_decomposed_counterexample :
  exists s,
    run 2 [SetSize (Int 8) (Int 8); SetBorders (Int 5, "dashed", red)]
      fresh_label = Ok s /\
    border_width s = Int 2 /\ ~ num_eq (border_width s) (Int 5).
Proof.
  eexists. split; [vm_compute; reflexivity|]. split; [reflexivity|].
  vm_compute. discriminate.
Qed.

Lemma borders_decomposed_witness :
  constructed fresh_label /\
  exists s',
    set_borders 2 (Int 5, "dashed", red) fresh_label = Ok s' /\
    borders s' = Some (Int 5, "dashed", red) /\
    num_eq (border_width s') (Int 5) /\
    border_style s' = Some "dashed" /\
    nums_eqb (border_color s') red = true /\
    cur_dash_style s' = Some (mkDash 10 5).
Proof.
  split; [exact fresh_label_is_constructed|].
  apply (borders_decomposed 1 fresh_label (Int 5) "dashed" red (mkDash 10 5));
    [exact fresh_label_is_constructed | vm_compute; reflexivity
     | reflexivity | reflexivity].
Defined.

Lemma one_border_for_life_witness :
  undrawn fresh_label /\ one_border demo_label.
Proof.
  destruct (one_border_for_life 2 (Int 0) (Int 0) (Int 100) (Int 100)
              no_kwargs [OnSize] fresh_label demo_label)
    as (Hu & _ & _ & Hob & _);
    [vm_compute; reflexivity | vm_compute; reflexivity |].
  split; assumption.
Defined.

(** C9, as stated, fails for the empty string at construction: it is
    falsy, so line 94 takes ['solid'] in its place and nothing is raised. *)
Lemma unknown_style_counterexample :
  _dash_styles !! "" = None /\
  exists s,
    __init__ 2 (Int 0) (Int 0) (Int 100) (Int 100)
      (mkKwargs None (Some "") None) = Ok s /\
    border_style s = Some "solid".
Proof.
  split; [vm_compute; reflexivity|].
  eexists. split; [vm_compute; reflexivity|]. reflexivity.
Qed.

Lemma unknown_style_raises_witness :
  __init__ 2 (Int 0) (Int 0) (Int 100) (Int 100)
    (mkKwargs None (Some "wavy") None) = Err (KeyError "wavy") /\
  set_borders 4 (Int 2, "wavy", red) fresh_label = Err (KeyError "wavy").
Proof.
  destruct (unknown_style_raises 2 "wavy") as [Hinit Hset];
    [discriminate | discriminate | discriminate |].
  split.
  - apply Hinit. discriminate.
  - apply Hset; [exact fresh_label_is_constructed | reflexivity].
Defined.

Lemma falsy_border_width_raises_witness :
  num_truthy (Int 0) = false /\
  __init__ 2 (Int 0) (Int 0) (Int 100) (Int 100)
    (mkKwargs (Some (Int 0)) None None)
  = Err (AttributeError "cur_dash_style").
Proof.
  split; [reflexivity|].
  apply (falsy_border_width_raises 1 (Int 0) (Int 0) (Int 100) (Int 100)
           (Int 0) None None).
  reflexivity.
Defined.

(** * Further properties of the handlers *)

(** ** Width changes on a drawn widget *)

Lemma positive_nonzero (w : num) :
  num_gtb w (Int 0) = true -> num_neb w (Int 0) = true.
Proof.
  intros H. unfold num_neb. apply negb_true_iff. apply gt_not_eqb. exact H.
Qed.

Lemma fabs_positive (w : num) :
  num_gtb w (Int 0) = true -> num_eq w (fabs w).
Proof.
  intros H. apply num_gtb_true in H. change (num_val (Int 0)) with 0%Q in H.
  unfold num_eq. rewrite num_val_fabs. symmetry. apply Qabs_pos. lra.
Qed.

(** A stored width within the limit: what the first branch of line 161
    leaves behind. *)
Lemma on_border_width_within (fuel : nat) (s : BorderStyle) (l : Line.t) :
  _INIT_STATE s = true -> border_line s = Some l ->
  num_leb (border_width s) (max_width s) = true ->
  exists s' l',
    on_border_width (S fuel) s = Ok s' /\
    same_config s s' /\ same_graphics s s' /\ origin_in_sync s' /\
    border_line s' = Some l' /\
    (num_neb (border_width s) (Int 0) = true ->
     num_eq (Line.width l') (fabs (border_width s))) /\
    (num_neb (border_width s) (Int 0) = false ->
     Line.rectangle l' = hidden).
Proof.
  intros Hinit Hl Hle.
  destruct (num_neb (border_width s) (Int 0)) eqn:Hnz.
  - destruct (on_border_width_in_range fuel s l Hinit Hl Hle Hnz)
      as (s' & l' & Hrun & Hc & Hg & Ho & Hl' & Hw & _).
    exists s', l'. repeat (split; [assumption|]). split; [|discriminate].
    intros _. rewrite Hw.
    destruct (num_gtb (border_width s) (Int 0)) eqn:Hgt.
    + apply fabs_positive. exact Hgt.
    + unfold num_eq. reflexivity.
  - destruct (on_border_width_step fuel s l Hinit Hl)
      as (s1 & r & Hc & Hg & Ho & Hl1 & _ & Hstep).
    rewrite Hstep, Hle, Hnz.
    assert (Hgt : num_gtb (border_width s) (Int 0) = false).
    { destruct (num_gtb (border_width s) (Int 0)) eqn:E; [|reflexivity].
      apply positive_nonzero in E. congruence. }
    rewrite Hgt. eexists _, _. split; [reflexivity|].
    split; [eapply same_config_trans; [exact Hc|apply alter_line_config]|].
    split; [eapply same_graphics_trans; [exact Hg|apply alter_line_graphics]|].
    split; [apply alter_line_sync; exact Ho|].
    rewrite border_line_alter, Hl1. split; [reflexivity|].
    split; [discriminate|]. intros _. reflexivity.
Qed.

(** X1: whatever width is assigned to a widget whose draw primitive
    exists, when the handler returns the stored width is at most
    [width / 4], the origin is the position moved by the stored width, a
    non-zero stored width has its absolute value as stroke width, and a zero
    stored width has the rectangle [[0, 0, 0, 0]]; the line is the one that
    was there. *)
Theorem border_width_postcondition (fuel : nat) (s : BorderStyle) (w : num) :
  drawn s ->
  num_eqb (border_width s) w = false ->
  exists s' l',
    set_border_width (S (S fuel)) w s = Ok s' /\
    same_graphics s s' /\ border_line s' = Some l' /\
    num_leb (border_width s') (max_width s') = true /\
    origin_in_sync s' /\
    (num_neb (border_width s') (Int 0) = true ->
     num_eq (Line.width l') (fabs (border_width s'))) /\
    (num_neb (border_width s') (Int 0) = false ->
     Line.rectangle l' = hidden).
Proof.
  intros [Hinit [l Hl]] Hchg. unfold set_border_width. rewrite Hchg.
  set (s0 := with_border_width w s).
  destruct (num_leb (border_width s0) (max_width s0)) eqn:Hle.
  - destruct (on_border_width_within (S fuel) s0 l Hinit Hl Hle)
      as (s' & l' & Hrun & Hc & Hg & Ho & Hl' & Hnz & Hz).
    exists s', l'. split; [exact Hrun|]. split; [exact Hg|].
    split; [exact Hl'|].
    destruct Hc as (_&_&Hw&_&Hb&_). unfold max_width. rewrite Hw, Hb.
    split; [exact Hle|]. split; [exact Ho|]. split; assumption.
  - destruct (on_border_width_step (S fuel) s0 l Hinit Hl)
      as (s1 & r & Hc & Hg & Ho & Hl1 & _ & Hstep).
    rewrite Hstep, Hle.
    assert (Hne : num_eqb (border_width s0) (max_width s0) = false).
    { apply gt_not_eqb. unfold num_gtb. rewrite Hle. reflexivity. }
    rewrite Hne.
    set (m := max_width s0) in *.
    set (s3 := with_border_width m (alter_line (Line.with_width m) s1)).
    destruct (alter_line_config (Line.with_width m) s1) as (_&_&Hw3&_).
    destruct (alter_line_graphics (Line.with_width m) s1) as (Hi3&Hg3).
    pose proof Hc as (_&_&Hw1&_). pose proof Hg as (Hi1&_).
    assert (Hm3 : max_width s3 = m).
    { unfold max_width, m. change (width s3)
        with (width (alter_line (Line.with_width (max_width s0)) s1)).
      fold m. rewrite Hw3, Hw1. reflexivity. }
    assert (Hinit3 : _INIT_STATE s3 = true).
    { change (_INIT_STATE s3)
        with (_INIT_STATE (alter_line (Line.with_width m) s1)).
      rewrite Hi3, Hi1. exact Hinit. }
    assert (Hl3 : border_line s3
                  = Some (Line.with_width m (Line.with_rectangle r l))).
    { change (border_line s3)
        with (border_line (alter_line (Line.with_width m) s1)).
      rewrite border_line_alter, Hl1. reflexivity. }
    assert (Hle3 : num_leb (border_width s3) (max_width s3) = true)
      by (rewrite Hm3; apply num_leb_refl).
    destruct (on_border_width_within fuel s3 _ Hinit3 Hl3 Hle3)
      as (s' & l' & Hrun & Hc' & Hg' & Ho' & Hl' & Hnz & Hz).
    exists s', l'. split; [exact Hrun|].
    split.
    { eapply same_graphics_trans; [exact Hg|].
      eapply same_graphics_trans; [|exact Hg'].
      apply (alter_line_graphics (Line.with_width m) s1). }
    split; [exact Hl'|].
    destruct Hc' as (_&_&Hw'&_&Hb'&_). unfold max_width at 1.
    rewrite Hw', Hb'. fold (max_width s3).
    split; [exact Hle3|]. split; [exact Ho'|]. split; assumption.
Qed.


(** ** Position changes on a drawn widget *)

Lemma set_pos_drawn (s : BorderStyle) (l : Line.t) (x y : num) :
  _INIT_STATE s = true -> border_line s = Some l ->
  num_eqb (pos_x s) x && num_eqb (pos_y s) y = false ->
  ~ origin_in_sync (moved_to x y s) ->
  exists s' l',
    set_pos x y s = Ok s' /\
    same_graphics s s' /\ origin_in_sync s' /\
    num_eq (pos_x s') x /\ num_eq (pos_y s') y /\
    width s' = width s /\ height s' = height s /\
    border_width s' = border_width s /\
    border_line s' = Some l' /\
    Line.width l' = Line.width l /\ Line.rectangle l' = outline s'.
Proof.
  intros Hinit Hl Hchg Hns.
  unfold set_pos, on_pos. rewrite Hchg. fold (moved_to x y s).
  destruct (set_border_origin_init (moved_to x y s) Hinit)
    as (s' & Hrun & Hc & Hg & Ho & Hr).
  destruct (Hr l Hl) as (r & Hl' & Hout).
  exists s', (Line.with_rectangle r l). split; [exact Hrun|].
  split; [exact Hg|]. split; [exact Ho|].
  destruct Hc as (Hpx&Hpy&Hw&Hh&Hb&_). rewrite Hpx, Hpy, Hw, Hh, Hb.
  split; [apply store_eq|]. split; [apply store_eq|].
  repeat (split; [reflexivity|]). split; [exact Hl'|].
  split; [reflexivity|]. exact (Hout Hns).
Qed.

(** X3: on a widget whose draw primitive exists, every change of the
    position that moves the origin (the stored origin differs from the new
    position plus the border width on some axis) sets the rectangle of the
    same line to
    [[origin.x, origin.y, width - 2*border_width, height - 2*border_width]];
    size, border width and stroke width stay as they were. *)
Theorem position_change_redraws (s : BorderStyle) (x y : num) :
  drawn s ->
  num_eqb (pos_x s) x && num_eqb (pos_y s) y = false ->
  ~ origin_in_sync (moved_to x y s) ->
  exists l s' l',
    border_line s = Some l /\ set_pos x y s = Ok s' /\
    same_graphics s s' /\ origin_in_sync s' /\
    num_eq (pos_x s') x /\ num_eq (pos_y s') y /\
    width s' = width s /\ height s' = height s /\
    border_width s' = border_width s /\
    border_line s' = Some l' /\
    Line.width l' = Line.width l /\ Line.rectangle l' = outline s'.
Proof.
  intros [Hinit [l Hl]] Hchg Hns.
  destruct (set_pos_drawn s l x y Hinit Hl Hchg Hns) as (s' & l' & H).
  exists l, s', l'. split; [exact Hl|exact H].
Qed.

(** X4: a border hidden by [border_width = 0] does not stay hidden: on a
    widget of non-zero width, the next change of position that moves the
    origin sets the rectangle of the line to the widget's bounds again,
    although the stored width is still zero. *)
Theorem hidden_border_returns_on_move (s : BorderStyle) (x y : num) :
  drawn s ->
  num_eqb (border_width s) (Int 0) = true ->
  num_eqb (width s) (Int 0) = false ->
  num_eqb (pos_x s) x && num_eqb (pos_y s) y = false ->
  ~ origin_in_sync (moved_to x y s) ->
  exists s' l',
    set_pos x y s = Ok s' /\
    num_eqb (border_width s') (Int 0) = true /\
    border_line s' = Some l' /\
    Line.rectangle l' = outline s' /\
    Line.rectangle l' <> hidden.
Proof.
  intros [Hinit [l Hl]] Hz Hw Hchg Hns.
  destruct (set_pos_drawn s l x y Hinit Hl Hchg Hns)
    as (s' & l' & Hrun & _ & _ & _ & _ & Hw' & _ & Hb' & Hl' & _ & Hr').
  exists s', l'. split; [exact Hrun|]. rewrite Hb'. split; [exact Hz|].
  split; [exact Hl'|]. split; [exact Hr'|].
  rewrite Hr'. unfold outline, hidden. rewrite Hw', Hb'. intros E.
  assert (E2 : py_sub (width s) (py_mul (Int 2) (border_width s)) = Int 0)
    by exact (f_equal (fun r => nth 2 r (Int 0)) E).
  apply num_eqb_false in Hw. apply Hw. apply num_eqb_true in Hz.
  unfold num_eq in *.
  assert (Hv : (num_val (py_sub (width s) (py_mul (Int 2) (border_width s)))
                == 0)%Q) by (rewrite E2; reflexivity).
  rewrite num_val_sub, num_val_mul, Hz in Hv.
  change (num_val (Int 0)) with 0%Q in *. change (num_val (Int 2)) with 2%Q in Hv.
  lra.
Qed.

(** ** The size handler *)

Lemma on_size_spec (s : BorderStyle) :
  constructed s ->
  exists s',
    on_size s = Ok s' /\
    num_eq (pos_x s') (py_add (pos_x s) (border_width s)) /\
    num_eq (pos_y s') (py_add (pos_y s) (border_width s)) /\
    width s' = width s /\ height s' = height s /\
    border_width s' = border_width s /\
    constructed s' /\ _INIT_STATE s' = true /\ origin_in_sync s' /\
    same_aggregate s s'.
Proof.
  intros Hcon. unfold on_size.
  destruct (set_border_origin_ok s Hcon) as (s1 & H1 & Hc1 & Ho1).
  rewrite H1. cbn [mbind result_bind].
  assert (Hcon1 : constructed s1)
    by (eapply same_config_constructed; eassumption).
  pose proof Hc1 as (Hpx1&Hpy1&Hw1&Hh1&Hb1&_).
  assert (exists s2,
             set_pos (_border_origin_x s1) (_border_origin_y s1) s1 = Ok s2 /\
             num_eq (pos_x s2) (_border_origin_x s1) /\
             num_eq (pos_y s2) (_border_origin_y s1) /\
             width s2 = width s1 /\ height s2 = height s1 /\
             border_width s2 = border_width s1 /\
             constructed s2 /\ origin_in_sync s2 /\ same_aggregate s1 s2)
    as (s2 & H2 & Hx2 & Hy2 & Hw2 & Hh2 & Hb2 & Hcon2 & Ho2 & Ha2).
  { unfold set_pos, on_pos.
    destruct (num_eqb (pos_x s1) (_border_origin_x s1)
              && num_eqb (pos_y s1) (_border_origin_y s1)) eqn:E.
    - apply andb_true_iff in E. destruct E as [Ex Ey].
      apply num_eqb_true in Ex, Ey.
      exists s1. split; [reflexivity|]. split; [exact Ex|].
      split; [exact Ey|]. do 3 (split; [reflexivity|]).
      split; [exact Hcon1|]. split; [exact Ho1|]. repeat split.
    - destruct (set_border_origin_ok
                  (with_pos_y (store (pos_y s1) (_border_origin_y s1))
                     (with_pos_x (store (pos_x s1) (_border_origin_x s1)) s1))
                  Hcon1) as (s2 & H2 & Hc2 & Ho2).
      exists s2. split; [exact H2|].
      pose proof Hc2 as (Hpx2&Hpy2&Hw2&Hh2&Hb2&_).
      cbn in Hpx2, Hpy2, Hw2, Hh2, Hb2. rewrite Hpx2, Hpy2.
      split; [apply store_eq|]. split; [apply store_eq|].
      repeat (split; [assumption|]).
      split; [eapply same_config_constructed; [exact Hc2|exact Hcon1]|].
      split; [exact Ho2|].
      destruct Hc2 as (_&_&_&_&_&?&?&?&?). repeat split; assumption. }
  rewrite H2. cbn [mbind result_bind].
  destruct Ho1 as [Hox1 Hoy1]. rewrite Hpx1, Hb1 in Hox1.
  rewrite Hpy1, Hb1 in Hoy1.
  assert (Hx : num_eq (pos_x s2) (py_add (pos_x s) (border_width s)))
    by (unfold num_eq in *; rewrite Hx2; exact Hox1).
  assert (Hy : num_eq (pos_y s2) (py_add (pos_y s) (border_width s)))
    by (unfold num_eq in *; rewrite Hy2; exact Hoy1).
  assert (Ha : same_aggregate s s2).
  { destruct Hc1 as (_&_&_&_&_&A1&A2&A3&A4), Ha2 as (B1&B2&B3&B4).
    repeat split; congruence. }
  destruct (_INIT_STATE s2) eqn:Hi.
  - exists s2. split; [reflexivity|]. split; [exact Hx|]. split; [exact Hy|].
    rewrite Hw2, Hh2, Hb2. repeat (split; [assumption|]). assumption.
  - destruct (draw_border_ok s2 Hcon2) as (s3 & H3 & Hc3 & Hi3 & Hx3 & Hy3).
    exists s3. split; [exact H3|].
    pose proof Hc3 as (Hpx3&Hpy3&Hw3&Hh3&Hb3&_).
    rewrite Hpx3, Hpy3, Hw3, Hh3, Hb3, Hw2, Hh2, Hb2.
    split; [exact Hx|]. split; [exact Hy|].
    repeat (split; [assumption|]).
    split; [eapply same_config_constructed; [exact Hc3|exact Hcon2]|].
    split; [exact Hi3|]. split; [eapply same_config_sync; eassumption|].
    destruct Hc3 as (_&_&_&_&_&A1&A2&A3&A4), Ha as (B1&B2&B3&B4).
    repeat split; congruence.
Qed.

(** X5: on every constructed widget with at most one border the size
    handler returns, and it has moved the widget: the new position is the
    old one plus the border width on both axes, and the origin is the new
    position plus the border width; size and border width are untouched
    and the draw primitive exists afterwards. *)
Theorem on_size_moves_widget (s : BorderStyle) :
  invariant s ->
  exists s',
    on_size s = Ok s' /\
    num_eq (pos_x s') (py_add (pos_x s) (border_width s)) /\
    num_eq (pos_y s') (py_add (pos_y s) (border_width s)) /\
    origin_in_sync s' /\
    width s' = width s /\ height s' = height s /\
    border_width s' = border_width s /\ drawn s'.
Proof.
  intros Hinv.
  destruct (on_size_spec s (proj2 Hinv))
    as (s' & Hrun & Hx & Hy & Hw & Hh & Hb & _ & Hi & Ho & _).
  exists s'. split; [exact Hrun|]. split; [exact Hx|]. split; [exact Hy|].
  split; [exact Ho|]. repeat (split; [assumption|]).
  destruct (evolves_on_size s s' Hinv Hrun) as [[[Hob _] _] _].
  apply one_border_drawn; assumption.
Qed.

(** X6: the position handler is idempotent on every constructed widget:
    it returns, and running it again on its result changes nothing. *)
Theorem on_pos_idempotent (s : BorderStyle) :
  constructed s ->
  exists s', on_pos s = Ok s' /\ on_pos s' = Ok s'.
Proof.
  intros Hcon. unfold on_pos.
  destruct (set_border_origin_ok s Hcon) as (s' & Hrun & _ & Ho).
  exists s'. split; [exact Hrun|]. apply set_border_origin_stable. exact Ho.
Qed.

Lemma store_changed (old new : num) :
  num_eqb old new = false -> store old new = new.
Proof. intros E. unfold store. rewrite E. reflexivity. Qed.

Lemma set_border_origin_stores (s : BorderStyle) :
  constructed s ->
  exists s',
    set_border_origin s = Ok s' /\ same_config s s' /\
    _border_origin_x s'
    = store (_border_origin_x s) (py_add (pos_x s) (border_width s)) /\
    _border_origin_y s'
    = store (_border_origin_y s) (py_add (pos_y s) (border_width s)).
Proof.
  intros Hcon. unfold set_border_origin, set__border_origin_x, store.
  destruct (num_eqb (_border_origin_x s) (py_add (pos_x s) (border_width s)))
    eqn:Ex.
  - cbn [mbind result_bind]. unfold set__border_origin_y.
    destruct (num_eqb (_border_origin_y s)
                (py_add (pos_y s) (border_width s))) eqn:Ey.
    + exists s. split; [reflexivity|]. split; [apply same_config_refl|].
      split; reflexivity.
    + destruct (on__border_origin_ok
                  (with__border_origin_y
                     (py_add (pos_y s) (border_width s)) s) Hcon)
        as (s' & Hrun & Hc & _ & Hx & Hy).
      exists s'. split; [exact Hrun|]. split; [exact Hc|].
      split; [exact Hx|exact Hy].
  - destruct (on__border_origin_ok
                (with__border_origin_x
                   (py_add (pos_x s) (border_width s)) s) Hcon)
      as (s1 & Hrun & Hc & _ & Hx & Hy).
    rewrite Hrun. cbn [mbind result_bind].
    pose proof Hc as (_&Hpy&_&_&Hb&_). cbn in Hpy, Hb, Hx, Hy.
    assert (Hcon1 : constructed s1)
      by (eapply same_config_constructed; [exact Hc|exact Hcon]).
    unfold set__border_origin_y. rewrite Hy, Hpy, Hb.
    destruct (num_eqb (_border_origin_y s)
                (py_add (pos_y s) (border_width s))) eqn:Ey.
    + exists s1. split; [reflexivity|]. split; [exact Hc|].
      split; [exact Hx|exact Hy].
    + destruct (on__border_origin_ok
                  (with__border_origin_y
                     (py_add (pos_y s) (border_width s)) s1) Hcon1)
        as (s2 & Hrun2 & Hc2 & _ & Hx2 & Hy2).
      exists s2. split; [exact Hrun2|].
      split; [eapply same_config_trans; [exact Hc|exact Hc2]|].
      cbn in Hx2, Hy2. rewrite Hx2, Hy2. split; [exact Hx|reflexivity].
Qed.

(** X7: on a constructed widget with at most one border and a border
    width that the position does not absorb, the size handler leaves the
    border drawn with the rectangle
    [[origin.x, origin.y, width - 2*border_width, height - 2*border_width]]
    of the state it returns, the origin being the new position plus the
    border width. *)
Theorem on_size_draws_outline (s : BorderStyle) :
  invariant s ->
  width_not_absorbed s ->
  exists s' l',
    on_size s = Ok s' /\ drawn s' /\ origin_in_sync s' /\
    border_line s' = Some l' /\ Line.rectangle l' = outline s'.
Proof.
  intros Hinv (Ex & Ey & Ax & Ay). pose proof Hinv as [_ Hcon].
  unfold on_size.
  destruct (set_border_origin_stores s Hcon) as (s1 & H1 & Hc1 & Hox1 & Hoy1).
  pose proof (evolves_set_border_origin s s1 Hinv H1) as [Hinv1 _].
  rewrite H1. cbn [mbind result_bind].
  pose proof Hc1 as (Hpx1&Hpy1&_&_&Hb1&_).
  rewrite <- Hox1, <- Hpx1 in Ex. rewrite <- Hoy1, <- Hpy1 in Ey.
  rewrite <- Hox1, <- Hb1 in Ax. rewrite <- Hoy1, <- Hb1 in Ay.
  unfold set_pos, on_pos. rewrite Ex. cbn [andb].
  rewrite (store_changed _ _ Ex), (store_changed _ _ Ey).
  set (t := with_pos_y (_border_origin_y s1)
              (with_pos_x (_border_origin_x s1) s1)).
  assert (Hinvt : invariant t) by exact Hinv1.
  unfold set_border_origin at 1. unfold set__border_origin_x.
  change (_border_origin_x t) with (_border_origin_x s1).
  change (pos_x t) with (_border_origin_x s1).
  change (border_width t) with (border_width s1).
  rewrite Ax.
  set (v := py_add (_border_origin_x s1) (border_width s1)).
  destruct (on__border_origin_ok (with__border_origin_x v t) (proj2 Hinvt))
    as (t1 & Ht1 & Hct1 & Hit1 & Hxt1 & Hyt1).
  destruct (evolves_on_origin (with__border_origin_x v t) t1 Hinvt Ht1)
    as [[Hinvt1 _] _].
  rewrite Ht1. cbn [mbind result_bind].
  pose proof Hct1 as (Hpx&Hpy&_&_&Hb&_). cbn in Hpx, Hpy, Hb, Hxt1, Hyt1.
  assert (Hsame : set__border_origin_y
                    (py_add (pos_y t1) (border_width t1)) t1
                  = set_border_origin t1).
  { unfold set_border_origin, set__border_origin_x.
    assert (E : num_eqb (_border_origin_x t1)
                  (py_add (pos_x t1) (border_width t1)) = true)
      by (rewrite Hxt1, Hpx, Hb; apply num_eqb_refl).
    rewrite E. reflexivity. }
  rewrite Hsame.
  destruct (one_border_drawn t1 (proj1 Hinvt1) Hit1) as [_ [l Hl]].
  destruct (set_border_origin_init t1 Hit1)
    as (s2 & H2 & Hc2 & Hg2 & Ho2 & Hr2).
  destruct (Hr2 l Hl) as (r & Hl2 & Hout).
  rewrite H2. cbn [mbind result_bind].
  destruct Hg2 as (Hi2 & Hrest). rewrite Hi2, Hit1.
  exists s2, (Line.with_rectangle r l). split; [reflexivity|].
  split; [split; [congruence | rewrite Hl2; eauto]|].
  split; [exact Ho2|]. split; [exact Hl2|].
  apply Hout. intros [_ Hy]. rewrite Hyt1, Hpy, Hb in Hy.
  apply num_eqb_true in Hy. rewrite Ay in Hy. discriminate.
Qed.

(** ** Re-entry of the width handler *)

Lemma on_border_width_more_fuel (fuel : nat) :
  forall s s',
    on_border_width fuel s = Ok s' -> on_border_width (S fuel) s = Ok s'.
Proof.
  induction fuel as [|fuel IH]; intros s s'; [discriminate|].
  intros H. cbn [on_border_width] in H.
  change (on_border_width (S (S fuel)) s)
    with (s1 ← set_border_origin s;
          match _border_lines s1 with
          | Some _ =>
              if num_leb (border_width s1) (py_div (width s1) (Int 4)) then
                if num_gtb (border_width s1) (Int 0) then
                  Ok (alter_line (Line.with_width (border_width s1)) s1)
                else if num_neb (border_width s1) (Int 0) then
                  Ok (alter_line
                        (Line.with_width (fabs (border_width s1))) s1)
                else
                  Ok (alter_line
                        (Line.with_rectangle [Int 0; Int 0; Int 0; Int 0]) s1)
              else
                let s2 := alter_line
                            (Line.with_width (py_div (width s1) (Int 4))) s1 in
                if num_eqb (border_width s2) (py_div (width s1) (Int 4))
                then Ok s2
                else on_border_width (S fuel)
                       (with_border_width (py_div (width s1) (Int 4)) s2)
          | None => Ok s1
          end).
  destruct (set_border_origin s) as [s1|e]; [|discriminate].
  cbn [mbind result_bind] in *.
  destruct (_border_lines s1); [|exact H].
  destruct (num_leb _ _); [exact H|]. cbv zeta in *.
  destruct (num_eqb _ _); [exact H|]. apply IH. exact H.
Qed.

(** X8: on a constructed widget the width handler re-enters itself at
    most once, whatever width is stored: two activations always suffice,
    and any larger budget gives the same result. *)
Theorem on_border_width_reentry_bounded (s : BorderStyle) :
  constructed s ->
  exists s', forall fuel, on_border_width (S (S fuel)) s = Ok s'.
Proof.
  intros Hcon.
  destruct (on_border_width_total 0 s Hcon) as (s' & Hrun & _).
  exists s'. induction fuel as [|fuel IH]; [exact Hrun|].
  apply on_border_width_more_fuel. exact IH.
Qed.

(** ** The origin follows the position under every event *)

Lemma on_borders_sync (fuel : nat) (v : num * string * list num)
  (s s' : BorderStyle) :
  constructed s -> on_borders (S (S fuel)) v s = Ok s' ->
  origin_in_sync s' /\ constructed s'.
Proof.
  intros Hcon. destruct v as [[w style] color]. unfold on_borders.
  destruct (set_border_width_ok fuel w s Hcon) as (s1 & H1 & Hcon1).
  rewrite H1. cbn [mbind result_bind].
  destruct (dash_style_of style) as [d|e]; [|discriminate].
  cbn [mbind result_bind].
  set (s2 := with_cur_dash_style (Some d)
               (set_border_color color
                  (with_border_style (Some style) s1))).
  assert (Hcon2 : constructed s2) by (unfold constructed; cbn; eauto).
  destruct (set_border_origin_ok s2 Hcon2) as (s3 & H3 & Hc3 & Ho3).
  rewrite H3. intros [= <-]. split; [exact Ho3|].
  eapply same_config_constructed; [exact Hc3|exact Hcon2].
Qed.

(** X9: once the origin of a constructed widget equals its position plus
    the border width, it does so after every event that returns: each
    handler that changes the position or the border width moves the origin
    with it before it returns. *)
Theorem origin_stays_in_sync (fuel : nat) (e : Event) (s s' : BorderStyle) :
  constructed s -> origin_in_sync s ->
  dispatch (S (S fuel)) e s = Ok s' ->
  origin_in_sync s' /\ constructed s'.
Proof.
  intros Hcon Hsync. destruct e; cbn [dispatch].
  - unfold set_pos, on_pos. destruct (_ && _).
    + intros [= <-]. split; assumption.
    + destruct (set_border_origin_ok
                  (with_pos_y (store (pos_y s) y)
                     (with_pos_x (store (pos_x s) x) s)) Hcon)
        as (s1 & H1 & Hc1 & Ho1).
      rewrite H1. intros [= <-]. split; [exact Ho1|].
      eapply same_config_constructed; [exact Hc1|exact Hcon].
  - unfold set_size. destruct (_ && _).
    + intros [= <-]. split; assumption.
    + destruct (on_size_spec
                  (with_height (store (height s) h)
                     (with_width (store (width s) w) s)) Hcon)
        as (s1 & H1 & _ & _ & _ & _ & _ & Hcon1 & _ & Ho1 & _).
      rewrite H1. intros [= <-]. split; assumption.
  - unfold set_border_width. destruct (num_eqb _ _).
    + intros [= <-]. split; assumption.
    + destruct (on_border_width_total fuel (with_border_width w s) Hcon)
        as (s1 & H1 & _ & _ & _ & _ & Hcon1 & Ho1).
      rewrite H1. intros [= <-]. split; assumption.
  - intros [= <-]. unfold set_border_color.
    destruct (nums_eqb _ _); split; assumption.
  - unfold set_borders. destruct (borders_eqb _ _).
    + intros [= <-]. split; assumption.
    + apply (on_borders_sync fuel v (with_borders (Some v) s) s' Hcon).
  - unfold on_pos.
    destruct (set_border_origin_ok s Hcon) as (s1 & H1 & Hc1 & Ho1).
    rewrite H1. intros [= <-]. split; [exact Ho1|].
    eapply same_config_constructed; [exact Hc1|exact Hcon].
  - destruct (on_size_spec s Hcon)
      as (s1 & H1 & _ & _ & _ & _ & _ & Hcon1 & _ & Ho1 & _).
    rewrite H1. intros [= <-]. split; assumption.
  - destruct (on__border_origin_ok s Hcon) as (s1 & H1 & Hc1 & _ & Hx & Hy).
    rewrite H1. intros [= <-].
    split; [eapply same_config_sync; eassumption|].
    eapply same_config_constructed; [exact Hc1|exact Hcon].
  - destruct (on_border_width_total fuel s Hcon)
      as (s1 & H1 & _ & _ & _ & _ & Hcon1 & Ho1).
    rewrite H1. intros [= <-]. split; assumption.
  - apply on_borders_sync. exact Hcon.
Qed.

(** ** What is drawn once stays as drawn *)

Lemma same_drawing_refl (s : BorderStyle) : same_drawing s s.
Proof. split; reflexivity. Qed.

Lemma same_drawing_trans (s1 s2 s3 : BorderStyle) :
  same_drawing s1 s2 -> same_drawing s2 s3 -> same_drawing s1 s3.
Proof. intros [H1 H2] [H3 H4]. split; congruence. Qed.

Lemma evolves_settled (s s' : BorderStyle) :
  settled s -> evolves s s' -> settled s'.
Proof.
  intros [_ Hi] [Hinv Hg]. split; [exact Hinv|].
  destruct (Hg Hi) as (Hi'&_). congruence.
Qed.

Lemma drawing_alter_line (f : Line.t -> Line.t) (s : BorderStyle) :
  settled s -> (forall l, line_style (f l) = line_style l) ->
  same_drawing s (alter_line f s).
Proof.
  intros [[[(Hi&_)|(_&Hbc&Hbl&c&l&Hc)] _] Hinit] Hf; [congruence|].
  split.
  - unfold colour_instruction, alter_line. rewrite Hbl. cbn.
    rewrite Hbc, Hc. reflexivity.
  - rewrite border_line_alter. destruct (border_line s); cbn; [|reflexivity].
    rewrite Hf. reflexivity.
Qed.

Lemma drawing_update_borders (s : BorderStyle) :
  settled s -> same_drawing s (_update_borders s).
Proof.
  intros H. unfold _update_borders.
  destruct (_border_lines s); [|apply same_drawing_refl].
  apply drawing_alter_line; [exact H|]. intros l. reflexivity.
Qed.

Lemma drawing_on_origin (s s' : BorderStyle) :
  settled s -> on__border_origin s = Ok s' -> same_drawing s s'.
Proof.
  intros H. rewrite on__border_origin_init by apply H.
  intros [= <-]. apply drawing_update_borders. exact H.
Qed.

Lemma drawing_set_border_origin (s s' : BorderStyle) :
  settled s -> set_border_origin s = Ok s' -> same_drawing s s'.
Proof.
  intros H. unfold set_border_origin.
  destruct (set__border_origin_x (py_add (pos_x s) (border_width s)) s)
    as [s1|e] eqn:Hx; [|discriminate].
  cbn [mbind result_bind]. intros Hy.
  pose proof (evolves_settled s s1 H
                (evolves_set_origin_x _ _ _ (proj1 H) Hx)) as H1.
  assert (D1 : same_drawing s s1).
  { revert Hx. unfold set__border_origin_x. destruct (num_eqb _ _).
    - intros [= <-]. apply same_drawing_refl.
    - apply (drawing_on_origin (with__border_origin_x _ s) s1 H). }
  eapply same_drawing_trans; [exact D1|].
  revert Hy. unfold set__border_origin_y. destruct (num_eqb _ _).
  - intros [= <-]. apply same_drawing_refl.
  - apply (drawing_on_origin (with__border_origin_y _ s1) s' H1).
Qed.

Lemma drawing_set_pos (x y : num) (s s' : BorderStyle) :
  settled s -> set_pos x y s = Ok s' -> same_drawing s s'.
Proof.
  intros H. unfold set_pos, on_pos. destruct (_ && _).
  - intros [= <-]. apply same_drawing_refl.
  - apply (drawing_set_border_origin
             (with_pos_y (store (pos_y s) y)
                (with_pos_x (store (pos_x s) x) s)) s' H).
Qed.

Lemma drawing_on_size (s s' : BorderStyle) :
  settled s -> on_size s = Ok s' -> same_drawing s s'.
Proof.
  intros H. unfold on_size.
  destruct (set_border_origin s) as [s1|e] eqn:H1; [|discriminate].
  cbn [mbind result_bind].
  destruct (set_pos (_border_origin_x s1) (_border_origin_y s1) s1)
    as [s2|e] eqn:H2; [|discriminate].
  cbn [mbind result_bind].
  pose proof (evolves_settled s s1 H
                (evolves_set_border_origin _ _ (proj1 H) H1)) as S1.
  pose proof (evolves_settled s1 s2 S1
                (evolves_set_pos _ _ _ _ (proj1 S1) H2)) as S2.
  destruct S2 as [_ Hi2]. rewrite Hi2. intros [= <-].
  eapply same_drawing_trans.
  - apply (drawing_set_border_origin s s1 H H1).
  - apply (drawing_set_pos _ _ s1 s2 S1 H2).
Qed.

Lemma drawing_on_border_width (fuel : nat) :
  forall s s',
    settled s -> on_border_width fuel s = Ok s' -> same_drawing s s'.
Proof.
  induction fuel as [|fuel IH]; intros s s' H; [discriminate|].
  cbn [on_border_width].
  destruct (set_border_origin s) as [s1|e] eqn:H1; [|discriminate].
  cbn [mbind result_bind].
  pose proof (evolves_settled s s1 H
                (evolves_set_border_origin _ _ (proj1 H) H1)) as S1.
  pose proof (drawing_set_border_origin s s1 H H1) as D1.
  destruct (_border_lines s1); [|intros [= <-]; exact D1].
  assert (Dw : forall v, same_drawing s1 (alter_line (Line.with_width v) s1))
    by (intros v; apply drawing_alter_line; [exact S1|reflexivity]).
  destruct (num_leb (border_width s1) (py_div (width s1) (Int 4))).
  - destruct (num_gtb (border_width s1) (Int 0));
      [|destruct (num_neb (border_width s1) (Int 0))];
      intros [= <-]; (eapply same_drawing_trans; [exact D1|]);
      solve [apply Dw
            | apply drawing_alter_line; [exact S1|reflexivity]].
  - destruct (num_eqb _ _).
    + intros [= <-]. eapply same_drawing_trans; [exact D1|apply Dw].
    + intros Hrun. eapply same_drawing_trans; [exact D1|].
      eapply same_drawing_trans; [apply Dw|].
      refine (IH _ s' _ Hrun).
      apply (evolves_settled s1); [exact S1|].
      apply (evolves_alter_line _ s1 (proj1 S1)).
Qed.

Lemma drawing_set_border_width (fuel : nat) (v : num) (s s' : BorderStyle) :
  settled s -> set_border_width fuel v s = Ok s' -> same_drawing s s'.
Proof.
  intros H. unfold set_border_width. destruct (num_eqb _ _).
  - intros [= <-]. apply same_drawing_refl.
  - apply (drawing_on_border_width fuel (with_border_width v s) s' H).
Qed.

Lemma drawing_on_borders (fuel : nat) (v : num * string * list num)
  (s s' : BorderStyle) :
  settled s -> on_borders fuel v s = Ok s' -> same_drawing s s'.
Proof.
  intros H. destruct v as [[w style] color]. unfold on_borders.
  destruct (set_border_width fuel w s) as [s1|e] eqn:H1; [|discriminate].
  cbn [mbind result_bind].
  destruct (dash_style_of style) as [d|e]; [|discriminate].
  cbn [mbind result_bind]. intros Hrun.
  pose proof (evolves_settled s s1 H
                (evolves_set_border_width _ _ _ _ (proj1 H) H1)) as S1.
  eapply same_drawing_trans;
    [apply (drawing_set_border_width fuel w s s1 H H1)|].
  set (s2 := with_cur_dash_style (Some d)
               (set_border_color color
                  (with_border_style (Some style) s1))) in *.
  assert (S2 : settled s2 /\ same_drawing s1 s2).
  { unfold s2, set_border_color. destruct (nums_eqb _ _).
    - split; [|exact (same_drawing_refl s1)].
      destruct S1 as [[Hob _] Hi]. split; [split; [exact Hob|]|exact Hi].
      unfold constructed. cbn. eauto.
    - split; [|exact (same_drawing_refl s1)].
      destruct S1 as [[Hob _] Hi]. split; [split; [exact Hob|]|exact Hi].
      unfold constructed. cbn. eauto. }
  eapply same_drawing_trans; [apply S2|].
  apply (drawing_set_border_origin s2 s' (proj1 S2) Hrun).
Qed.

(** X10: once the border is drawn, no event changes the colour
    instruction or the cap, joint, dash length and dash offset of the line:
    a colour or a style assigned later, directly or through [borders], is
    stored but never reaches the canvas. *)
Theorem drawing_never_restyled (fuel : nat) (e : Event) (s s' : BorderStyle) :
  settled s -> dispatch fuel e s = Ok s' ->
  settled s' /\ same_drawing s s'.
Proof.
  intros H Hrun.
  split; [apply (evolves_settled s s' H);
          apply (evolves_dispatch fuel e s s' (proj1 H) Hrun)|].
  revert Hrun. destruct e; cbn [dispatch].
  - apply drawing_set_pos. exact H.
  - unfold set_size. destruct (_ && _).
    + intros [= <-]. apply same_drawing_refl.
    + apply (drawing_on_size
               (with_height (store (height s) h)
                  (with_width (store (width s) w) s)) s' H).
  - apply drawing_set_border_width. exact H.
  - intros [= <-]. unfold set_border_color.
    destruct (nums_eqb _ _); exact (same_drawing_refl s).
  - unfold set_borders. destruct (borders_eqb _ _).
    + intros [= <-]. apply same_drawing_refl.
    + apply (drawing_on_borders fuel v (with_borders (Some v) s) s' H).
  - apply drawing_set_border_origin. exact H.
  - apply drawing_on_size. exact H.
  - apply drawing_on_origin. exact H.
  - apply drawing_on_border_width. exact H.
  - apply drawing_on_borders. exact H.
Qed.

(** ** Construction with a width *)

(** X11: no handler can draw before line 95 has set [cur_dash_style].  A
    truthy [border_width] argument that differs from the default [1.0] and
    moves the origin off [(0, 0)] makes the width handler run as soon as
    the argument is stored, the origin handler then calls [_draw_border]
    too early, and the constructor raises [AttributeError]. *)
Theorem constructor_width_raises (fuel : nat) (x y w h v : num)
  (style : option string) (color : option (list num)) :
  num_truthy v = true ->
  num_eqb (Float 1) v = false ->
  num_eqb (Float 0) (py_add x v) && num_eqb (Float 0) (py_add y v) = false ->
  __init__ (S fuel) x y w h (mkKwargs (Some v) style color)
  = Err (AttributeError "cur_dash_style").
Proof.
  intros Ht Hne Hmove. unfold __init__, Widget__init__.
  cbn [kw_border_width kw_border_style kw_border_color].
  assert (Hset : set_border_width (S fuel) v (class_defaults x y w h)
                 = Err (AttributeError "cur_dash_style")).
  { unfold set_border_width.
    change (border_width (class_defaults x y w h)) with (Float 1).
    rewrite Hne.
    apply on_border_width_raises; [reflexivity|reflexivity|reflexivity|].
    exact Hmove. }
  rewrite Hset. reflexivity.
Qed.

(** ** Style, colour and aggregate *)

Lemma same_config_aggregate (s s' : BorderStyle) :
  same_config s s' -> same_aggregate s s'.
Proof. intros (_&_&_&_&_&?&?&?&?). repeat split; assumption. Qed.

Lemma same_aggregate_trans (s1 s2 s3 : BorderStyle) :
  same_aggregate s1 s2 -> same_aggregate s2 s3 -> same_aggregate s1 s3.
Proof. intros (?&?&?&?) (?&?&?&?). repeat split; congruence. Qed.

(** What one assignment of the width leaves in the fields, drawn or not:
    the assigned width or [width / 4], and nothing else is touched. *)
Lemma on_border_width_outcome (fuel : nat) (s : BorderStyle) :
  constructed s ->
  exists s',
    on_border_width (S (S fuel)) s = Ok s' /\
    constructed s' /\ origin_in_sync s' /\ same_aggregate s s' /\
    width s' = width s /\
    (border_width s' = border_width s \/ border_width s' = max_width s).
Proof.
  intros Hcon.
  destruct (num_leb (border_width s) (max_width s)) eqn:Hle.
  - destruct (on_border_width_settled (S fuel) s Hcon Hle)
      as (s' & Hrun & Hc & Ho).
    exists s'. split; [exact Hrun|].
    split; [eapply same_config_constructed; eassumption|].
    split; [exact Ho|]. split; [apply same_config_aggregate; exact Hc|].
    destruct Hc as (_&_&Hw&_&Hb&_). split; [exact Hw|left; exact Hb].
  - destruct (set_border_origin_ok s Hcon) as (s1 & Hrun & Hc & Ho).
    cbn [on_border_width]. rewrite Hrun. cbn [mbind result_bind].
    pose proof Hc as (_&_&Hw&_&Hb&_).
    assert (Hcon1 : constructed s1)
      by (eapply same_config_constructed; eassumption).
    unfold max_width in Hle |- *. rewrite Hw, Hb, Hle.
    set (m := py_div (width s) (Int 4)).
    destruct (_border_lines s1) eqn:Hl.
    + pose proof (alter_line_config (Line.with_width m) s1) as Hc2.
      pose proof Hc2 as (_&_&Hw2&_&Hb2&_). rewrite Hb2, Hb.
      destruct (num_eqb (border_width s) m).
      * eexists. split; [reflexivity|].
        split; [eapply same_config_constructed; [exact Hc2|exact Hcon1]|].
        split; [apply alter_line_sync; exact Ho|].
        split; [apply same_config_aggregate;
                eapply same_config_trans; eassumption|].
        rewrite Hw2, Hb2. split; [exact Hw|left; exact Hb].
      * set (s3 := with_border_width m
                     (alter_line (Line.with_width m) s1)).
        assert (Hcon3 : constructed s3)
          by exact (same_config_constructed _ _ Hc2 Hcon1).
        assert (Hle3 : num_leb (border_width s3) (max_width s3) = true).
        { unfold max_width, s3. cbn. rewrite Hw2, Hw. apply num_leb_refl. }
        destruct (on_border_width_settled fuel s3 Hcon3 Hle3)
          as (s' & Hrun' & Hc' & Ho').
        exists s'. split; [exact Hrun'|].
        split; [eapply same_config_constructed; eassumption|].
        split; [exact Ho'|].
        split.
        { eapply same_aggregate_trans;
            [apply same_config_aggregate; exact Hc|].
          eapply same_aggregate_trans;
            [apply same_config_aggregate; exact Hc2|].
          apply (same_config_aggregate s3 s' Hc'). }
        destruct Hc' as (_&_&Hw'&_&Hb'&_). unfold s3 in Hw', Hb'.
        cbn in Hw', Hb'. rewrite Hw', Hb', Hw2.
        split; [exact Hw|right; reflexivity].
    + exists s1. split; [reflexivity|]. split; [exact Hcon1|].
      split; [exact Ho|]. split; [apply same_config_aggregate; exact Hc|].
      split; [exact Hw|left; exact Hb].
Qed.

(** X12: on a constructed widget a change of [borders] to a triple with a
    known style always returns.  The aggregate, the style, the colour and
    the dash parameters then read back as given; the width reads back as
    given or, when it was clamped, as [width / 4], so that [borders] and
    [border_width] may disagree. *)
Theorem borders_with_known_style (fuel : nat) (s : BorderStyle)
  (w : num) (style : string) (color : list num) (d : DashStyle) :
  constructed s ->
  _dash_styles !! style = Some d ->
  borders_eqb (borders s) (w, style, color) = false ->
  exists s',
    set_borders (S (S fuel)) (w, style, color) s = Ok s' /\
    borders s' = Some (w, style, color) /\
    border_style s' = Some style /\
    nums_eqb (border_color s') color = true /\
    cur_dash_style s' = Some d /\
    origin_in_sync s' /\
    (num_eq (border_width s') w \/ border_width s' = max_width s).
Proof.
  intros Hcon Hd Hchg. unfold set_borders. rewrite Hchg. unfold on_borders.
  set (s0 := with_borders (Some (w, style, color)) s).
  assert (exists s1,
             set_border_width (S (S fuel)) w s0 = Ok s1 /\
             constructed s1 /\ borders s1 = Some (w, style, color) /\
             (num_eq (border_width s1) w
              \/ border_width s1 = max_width s))
    as (s1 & H1 & Hcon1 & Hbs1 & Hb1).
  { unfold set_border_width.
    destruct (num_eqb (border_width s0) w) eqn:E.
    - exists s0. split; [reflexivity|]. split; [exact Hcon|].
      split; [reflexivity|]. left. apply num_eqb_true. exact E.
    - destruct (on_border_width_outcome fuel (with_border_width w s0) Hcon)
        as (s1 & H1 & Hcon1 & _ & (_&_&Hbs&_) & _ & Hb).
      exists s1. split; [exact H1|]. split; [exact Hcon1|].
      split; [exact Hbs|].
      destruct Hb as [Hb|Hb]; [left|right; exact Hb].
      rewrite Hb. unfold num_eq. reflexivity. }
  rewrite H1. cbn [mbind result_bind].
  unfold dash_style_of. rewrite Hd. cbn [mbind result_bind].
  set (s2 := with_cur_dash_style (Some d)
               (set_border_color color
                  (with_border_style (Some style) s1))).
  assert (Hcon2 : constructed s2) by (unfold constructed; cbn; eauto).
  destruct (set_border_origin_ok s2 Hcon2) as (s' & Hrun & Hc & Ho).
  exists s'. split; [exact Hrun|].
  destruct Hc as (_&_&_&_&Hb&Hst&Hco&Hbs&Hcd).
  rewrite Hb, Hst, Hco, Hbs, Hcd.
  assert (Hfields : borders s2 = borders s1 /\
                    border_width s2 = border_width s1 /\
                    border_style s2 = Some style).
  { unfold s2, set_border_color. destruct (nums_eqb _ _); repeat split. }
  destruct Hfields as (-> & -> & ->).
  split; [exact Hbs1|]. split; [reflexivity|].
  split; [apply (set_border_color_eq color
                   (with_border_style (Some style) s1))|].
  split; [reflexivity|]. split; [exact Ho|exact Hb1].
Qed.

Lemma aggregate_consistent (s s' : BorderStyle) :
  same_aggregate s s' -> style_consistent s -> style_consistent s'.
Proof.
  intros (Hst&_&_&Hcd) (style & d & H1 & H2 & H3).
  exists style, d. rewrite Hst, Hcd. repeat split; assumption.
Qed.

Lemma consistent_constructed (s : BorderStyle) :
  style_consistent s -> constructed s.
Proof. intros (style & d & _ & H & _). unfold constructed. rewrite H. eauto. Qed.

Lemma on_borders_consistent (fuel : nat) (v : num * string * list num)
  (s s' : BorderStyle) :
  constructed s -> on_borders (S (S fuel)) v s = Ok s' -> style_consistent s'.
Proof.
  intros Hcon. destruct v as [[w style] color]. unfold on_borders.
  destruct (set_border_width_ok fuel w s Hcon) as (s1 & H1 & Hcon1).
  rewrite H1. cbn [mbind result_bind]. unfold dash_style_of.
  destruct (_dash_styles !! style) as [d|] eqn:Hd; [|discriminate].
  cbn [mbind result_bind].
  set (s2 := with_cur_dash_style (Some d)
               (set_border_color color
                  (with_border_style (Some style) s1))).
  assert (Hcon2 : constructed s2) by (unfold constructed; cbn; eauto).
  destruct (set_border_origin_ok s2 Hcon2) as (s3 & H3 & Hc3 & _).
  rewrite H3. intros [= <-].
  apply (aggregate_consistent s2 s3 (same_config_aggregate _ _ Hc3)).
  exists style, d. unfold s2, set_border_color.
  destruct (nums_eqb _ _); repeat split; assumption.
Qed.

Lemma dispatch_consistent (fuel : nat) (e : Event) (s s' : BorderStyle) :
  style_consistent s -> dispatch (S (S fuel)) e s = Ok s' ->
  style_consistent s'.
Proof.
  intros Hsc. pose proof (consistent_constructed s Hsc) as Hcon.
  destruct e; cbn [dispatch].
  - unfold set_pos, on_pos. destruct (_ && _).
    + intros [= <-]. exact Hsc.
    + destruct (set_border_origin_ok
                  (with_pos_y (store (pos_y s) y)
                     (with_pos_x (store (pos_x s) x) s)) Hcon)
        as (s1 & H1 & Hc1 & _).
      rewrite H1. intros [= <-].
      exact (aggregate_consistent _ s1 (same_config_aggregate _ _ Hc1) Hsc).
  - unfold set_size. destruct (_ && _).
    + intros [= <-]. exact Hsc.
    + destruct (on_size_spec
                  (with_height (store (height s) h)
                     (with_width (store (width s) w) s)) Hcon)
        as (s1 & H1 & _ & _ & _ & _ & _ & _ & _ & _ & Ha).
      rewrite H1. intros [= <-]. exact (aggregate_consistent _ s1 Ha Hsc).
  - unfold set_border_width. destruct (num_eqb _ _).
    + intros [= <-]. exact Hsc.
    + destruct (on_border_width_outcome fuel (with_border_width w s) Hcon)
        as (s1 & H1 & _ & _ & Ha & _).
      rewrite H1. intros [= <-]. exact (aggregate_consistent _ s1 Ha Hsc).
  - intros [= <-]. unfold set_border_color.
    destruct (nums_eqb _ _); exact Hsc.
  - unfold set_borders. destruct (borders_eqb _ _).
    + intros [= <-]. exact Hsc.
    + apply (on_borders_consistent fuel v (with_borders (Some v) s) s' Hcon).
  - unfold on_pos.
    destruct (set_border_origin_ok s Hcon) as (s1 & H1 & Hc1 & _).
    rewrite H1. intros [= <-].
    exact (aggregate_consistent _ s1 (same_config_aggregate _ _ Hc1) Hsc).
  - destruct (on_size_spec s Hcon)
      as (s1 & H1 & _ & _ & _ & _ & _ & _ & _ & _ & Ha).
    rewrite H1. intros [= <-]. exact (aggregate_consistent _ s1 Ha Hsc).
  - destruct (on__border_origin_ok s Hcon) as (s1 & H1 & Hc1 & _).
    rewrite H1. intros [= <-].
    exact (aggregate_consistent _ s1 (same_config_aggregate _ _ Hc1) Hsc).
  - destruct (on_border_width_outcome fuel s Hcon)
      as (s1 & H1 & _ & _ & Ha & _).
    rewrite H1. intros [= <-]. exact (aggregate_consistent _ s1 Ha Hsc).
  - apply on_borders_consistent. exact Hcon.
Qed.

Lemma init_consistent (fuel : nat) (x y w h : num) (kwargs : Kwargs)
  (s : BorderStyle) :
  __init__ fuel x y w h kwargs = Ok s -> style_consistent s.
Proof.
  unfold __init__.
  destruct (Widget__init__ fuel x y w h kwargs) as [s0|e]; [|discriminate].
  cbn [mbind result_bind].
  destruct (set_border_width fuel _ s0) as [s1|e]; [|discriminate].
  cbn [mbind result_bind]. unfold dash_style_of.
  destruct (_dash_styles !! _) as [d|] eqn:Hd; [|discriminate].
  cbn [mbind result_bind]. intros [= <-].
  exists (str_or (kw_border_style kwargs) "solid"), d.
  unfold set_border_color. destruct (nums_eqb _ _); repeat split; assumption.
Qed.

(** X13: as long as no event has raised, [cur_dash_style] is the entry of
    [_dash_styles] for the stored [border_style]: a constructor that
    returns establishes it, and every event of position, size, width,
    colour and aggregate that returns keeps it.  A run in which an event
    raises is outside the statement: an assignment of [borders] with an
    unknown style stops at line 151 with the new [border_style] stored and
    the old [cur_dash_style] still in place. *)
Theorem dash_parameters_match_style
  (fuel n : nat) (x y w h : num) (kwargs : Kwargs) (es : list Event)
  (s0 s : BorderStyle) :
  __init__ fuel x y w h kwargs = Ok s0 ->
  run (S (S n)) es s0 = Ok s ->
  style_consistent s.
Proof.
  intros Hinit. apply init_consistent in Hinit. revert s0 Hinit.
  induction es as [|e es IH]; intros s0 Hsc; cbn [run].
  - intros [= <-]. exact Hsc.
  - destruct (dispatch (S (S n)) e s0) as [s1|err] eqn:H1; [|discriminate].
    cbn [mbind result_bind]. apply IH.
    exact (dispatch_consistent n e s0 s1 Hsc H1).
Qed.

(** ** What a failed assignment of the aggregate leaves behind *)




(** ** What the first layout event draws *)

Lemma draw_border_fresh (s : BorderStyle) (d : DashStyle) :
  undrawn s -> cur_dash_style s = Some d ->
  exists s',
    _draw_border (with__INIT_STATE true s) = Ok s' /\
    same_config s s' /\ settled s' /\
    _border_origin_x s' = _border_origin_x s /\
    _border_origin_y s' = _border_origin_y s /\
    drawn_with (border_width s) (border_color s) d s'.
Proof.
  intros (Hi&Hc&Hbc&Hbl) Hd. unfold _draw_border. cbn. rewrite Hd, Hc.
  eexists. split; [reflexivity|]. cbn.
  split; [unfold same_config; repeat split|].
  split.
  { split; [split|reflexivity].
    - right. cbn. repeat split. eauto.
    - unfold constructed. cbn. rewrite Hd. eauto. }
  split; [reflexivity|]. split; [reflexivity|].
  split; [reflexivity|]. eexists. split; [reflexivity|]. split; reflexivity.
Qed.

Lemma drawn_with_kept (w : num) (c : list num) (d : DashStyle)
  (s s' : BorderStyle) :
  settled s -> drawn_with w c d s ->
  set_border_origin s = Ok s' -> settled s' /\ drawn_with w c d s'.
Proof.
  intros Hs [Hcol (l & Hl & Hw & Hst)] Hrun.
  split; [apply (evolves_settled s s' Hs);
          apply (evolves_set_border_origin s s' (proj1 Hs) Hrun)|].
  destruct (drawing_set_border_origin s s' Hs Hrun) as [Dc _].
  destruct (set_border_origin_init s (proj2 Hs)) as (s2 & H2 & _ & _ & _ & Hr).
  rewrite Hrun in H2. injection H2 as <-.
  destruct (Hr l Hl) as (r & Hl' & _).
  split; [rewrite Dc; exact Hcol|].
  exists (Line.with_rectangle r l). split; [exact Hl'|].
  split; [exact Hw|exact Hst].
Qed.

Lemma on_origin_first (s : BorderStyle) (d : DashStyle) :
  undrawn s -> cur_dash_style s = Some d ->
  exists s',
    on__border_origin s = Ok s' /\ same_config s s' /\ settled s' /\
    _border_origin_x s' = _border_origin_x s /\
    _border_origin_y s' = _border_origin_y s /\
    drawn_with (border_width s) (border_color s) d s'.
Proof.
  intros Hu Hd. pose proof Hu as (Hi&_&_&Hbl).
  unfold on__border_origin, _update_borders. rewrite Hbl, Hi.
  apply draw_border_fresh; assumption.
Qed.

(** From an undrawn widget [set_border_origin] either leaves everything
    undrawn or draws the border from the fields as they are. *)
Lemma set_border_origin_first (s : BorderStyle) (d : DashStyle) :
  undrawn s -> cur_dash_style s = Some d ->
  exists s',
    set_border_origin s = Ok s' /\ same_config s s' /\
    ((undrawn s' /\ origin_in_sync s') \/
     (settled s' /\ drawn_with (border_width s) (border_color s) d s')).
Proof.
  intros Hu Hd. unfold set_border_origin, set__border_origin_x.
  destruct (num_eqb (_border_origin_x s) (py_add (pos_x s) (border_width s)))
    eqn:Ex.
  - cbn [mbind result_bind]. unfold set__border_origin_y.
    destruct (num_eqb (_border_origin_y s)
                (py_add (pos_y s) (border_width s))) eqn:Ey.
    + exists s. split; [reflexivity|]. split; [apply same_config_refl|].
      left. split; [exact Hu|]. apply num_eqb_true in Ex, Ey.
      split; assumption.
    + destruct (on_origin_first
                  (with__border_origin_y
                     (py_add (pos_y s) (border_width s)) s) d Hu Hd)
        as (s' & Hrun & Hc & Hs & _ & _ & Hdw).
      exists s'. split; [exact Hrun|]. split; [exact Hc|].
      right. split; assumption.
  - destruct (on_origin_first
                (with__border_origin_x
                   (py_add (pos_x s) (border_width s)) s) d Hu Hd)
      as (s1 & H1 & Hc1 & Hs1 & _ & _ & Hdw1).
    rewrite H1. cbn [mbind result_bind].
    cbn [border_width border_color with__border_origin_x] in Hdw1.
    unfold set__border_origin_y.
    destruct (num_eqb (_border_origin_y s1)
                (py_add (pos_y s1) (border_width s1))).
    + exists s1. split; [reflexivity|]. split; [exact Hc1|].
      right. split; assumption.
    + rewrite on__border_origin_init by apply Hs1.
      set (t := with__border_origin_y (py_add (pos_y s1) (border_width s1)) s1).
      assert (Hst : settled t) by exact Hs1.
      eexists. split; [reflexivity|].
      split; [eapply same_config_trans;
              [exact Hc1|apply (update_borders_config t)]|].
      right. split.
      { apply (evolves_settled t); [exact Hst|].
        apply evolves_update_borders. apply Hst. }
      destruct Hdw1 as [Hcol (l & Hl & Hw & Hstl)].
      destruct (drawing_update_borders t Hst) as [Dc _].
      split; [rewrite Dc; exact Hcol|].
      exists (Line.with_rectangle (outline t) l).
      rewrite update_borders_line.
      change (border_line t) with (border_line s1). rewrite Hl.
      split; [reflexivity|]. split; [exact Hw|exact Hstl].
Qed.

Lemma finish_on_size (w : num) (c : list num) (s2 : BorderStyle)
  (d : DashStyle) :
  border_width s2 = w -> border_color s2 = c -> cur_dash_style s2 = Some d ->
  (undrawn s2 \/ (settled s2 /\ drawn_with w c d s2)) ->
  exists s',
    (if _INIT_STATE s2 then Ok s2
     else _draw_border (with__INIT_STATE true s2)) = Ok s' /\
    drawn_with w c d s'.
Proof.
  intros Hb Hco Hd [Hu|[Hs Hdw]].
  - pose proof Hu as (Hi&_). rewrite Hi.
    destruct (draw_border_fresh s2 d Hu Hd)
      as (s' & Hrun & _ & _ & _ & _ & Hdw).
    exists s'. split; [exact Hrun|]. rewrite <- Hb, <- Hco. exact Hdw.
  - destruct Hs as [Hinv Hi]. rewrite Hi. exists s2. split; [reflexivity|].
    exact Hdw.
Qed.

(** X14: on a constructed widget on which nothing is drawn yet, the size
    handler draws the border from the fields as they are at that moment:
    the colour instruction carries [border_color], the line has stroke
    width [border_width], cap ['square'], joint ['miter'] and the dash
    length and offset of [cur_dash_style]. *)
Theorem first_layout_attributes (s : BorderStyle) (d : DashStyle) :
  undrawn s -> cur_dash_style s = Some d ->
  exists s',
    on_size s = Ok s' /\
    drawn_with (border_width s) (border_color s) d s'.
Proof.
  intros Hu Hd. unfold on_size.
  destruct (set_border_origin_first s d Hu Hd) as (s1 & H1 & Hc1 & Hcase).
  rewrite H1. cbn [mbind result_bind].
  pose proof Hc1 as (_&_&_&_&Hb1&_&Hco1&_&Hcd1).
  assert (Hd1 : cur_dash_style s1 = Some d) by (rewrite Hcd1; exact Hd).
  assert (exists s2,
             set_pos (_border_origin_x s1) (_border_origin_y s1) s1 = Ok s2 /\
             border_width s2 = border_width s /\
             border_color s2 = border_color s /\
             cur_dash_style s2 = Some d /\
             (undrawn s2 \/
              (settled s2 /\
               drawn_with (border_width s) (border_color s) d s2)))
    as (s2 & H2 & Hb2 & Hco2 & Hd2 & Hcase2).
  { unfold set_pos, on_pos.
    destruct (num_eqb (pos_x s1) (_border_origin_x s1)
              && num_eqb (pos_y s1) (_border_origin_y s1)).
    - exists s1. split; [reflexivity|]. repeat (split; [assumption|]).
      destruct Hcase as [[Hu1 _]|Hs1]; [left; exact Hu1|right; exact Hs1].
    - set (t := with_pos_y (store (pos_y s1) (_border_origin_y s1))
                  (with_pos_x (store (pos_x s1) (_border_origin_x s1)) s1)).
      destruct Hcase as [[Hu1 _]|[Hs1 Hdw1]].
      + destruct (set_border_origin_first t d Hu1 Hd1)
          as (s2 & H2 & Hc2 & Hcase2).
        exists s2. split; [exact H2|].
        destruct Hc2 as (_&_&_&_&Hb2&_&Hco2&_&Hcd2).
        cbn in Hb2, Hco2, Hcd2. rewrite Hb2, Hco2, Hcd2.
        repeat (split; [assumption|]).
        destruct Hcase2 as [[Hu2 _]|[Hs2 Hdw2]]; [left; exact Hu2|].
        right. split; [exact Hs2|].
        cbn in Hdw2. rewrite Hb1, Hco1 in Hdw2. exact Hdw2.
      + destruct (set_border_origin_init t (proj2 Hs1))
          as (s2 & H2 & Hc2 & _).
        destruct (drawn_with_kept _ _ d t s2 Hs1 Hdw1 H2) as [Hs2 Hdw2].
        exists s2. split; [exact H2|].
        destruct Hc2 as (_&_&_&_&Hb2&_&Hco2&_&Hcd2).
        cbn in Hb2, Hco2, Hcd2. rewrite Hb2, Hco2, Hcd2.
        repeat (split; [assumption|]). right. split; assumption. }
  rewrite H2. cbn [mbind result_bind].
  apply finish_on_size; assumption.
Qed.

(** ** Instances of the further properties *)

Lemma hidden_label_reached :
  run 2 [SetBorderWidth (Int 0)] demo_label = Ok hidden_label.
Proof. vm_compute. reflexivity. Qed.

Lemma demo_label_in_sync : origin_in_sync demo_label.
Proof. split; vm_compute; reflexivity. Defined.

Lemma hidden_label_drawn : drawn hidden_label.
Proof. split; [reflexivity|]. eexists. reflexivity. Defined.

Lemma hidden_label_in_sync : origin_in_sync hidden_label.
Proof. split; vm_compute; reflexivity. Defined.

Lemma fresh_label_invariant : invariant fresh_label.
Proof.
  split; [left; repeat split|exact fresh_label_is_constructed].
Defined.

Lemma demo_label_settled : settled demo_label.
Proof.
  split; [split; [right; repeat split; eauto|exact demo_label_is_constructed]
         |reflexivity].
Defined.

Lemma border_width_postcondition_witness :
  drawn demo_label /\
  exists s' l',
    set_border_width 2 (Int 30) demo_label = Ok s' /\
    same_graphics demo_label s' /\ border_line s' = Some l' /\
    num_leb (border_width s') (max_width s') = true /\
    origin_in_sync s' /\
    (num_neb (border_width s') (Int 0) = true ->
     num_eq (Line.width l') (fabs (border_width s'))) /\
    (num_neb (border_width s') (Int 0) = false ->
     Line.rectangle l' = hidden).
Proof.
  split; [exact demo_label_drawn|].
  apply (border_width_postcondition 0 demo_label (Int 30));
    [exact demo_label_drawn | reflexivity].
Defined.


Lemma position_change_redraws_witness :
  drawn demo_label /\
  ~ origin_in_sync (moved_to (Int 10) (Int 20) demo_label) /\
  exists l s' l',
    border_line demo_label = Some l /\
    set_pos (Int 10) (Int 20) demo_label = Ok s' /\
    same_graphics demo_label s' /\ origin_in_sync s' /\
    num_eq (pos_x s') (Int 10) /\ num_eq (pos_y s') (Int 20) /\
    width s' = width demo_label /\ height s' = height demo_label /\
    border_width s' = border_width demo_label /\
    border_line s' = Some l' /\
    Line.width l' = Line.width l /\ Line.rectangle l' = outline s'.
Proof.
  assert (Hns : ~ origin_in_sync (moved_to (Int 10) (Int 20) demo_label))
    by (intros [H _]; vm_compute in H; discriminate H).
  split; [exact demo_label_drawn|]. split; [exact Hns|].
  apply (position_change_redraws demo_label (Int 10) (Int 20));
    [exact demo_label_drawn | reflexivity | exact Hns].
Defined.

Lemma hidden_border_returns_on_move_witness :
  drawn hidden_label /\
  ~ origin_in_sync (moved_to (Int 10) (Int 20) hidden_label) /\
  exists s' l',
    set_pos (Int 10) (Int 20) hidden_label = Ok s' /\
    num_eqb (border_width s') (Int 0) = true /\
    border_line s' = Some l' /\
    Line.rectangle l' = outline s' /\
    Line.rectangle l' <> hidden.
Proof.
  assert (Hns : ~ origin_in_sync (moved_to (Int 10) (Int 20) hidden_label))
    by (intros [H _]; vm_compute in H; discriminate H).
  split; [exact hidden_label_drawn|]. split; [exact Hns|].
  apply (hidden_border_returns_on_move hidden_label (Int 10) (Int 20));
    [exact hidden_label_drawn | reflexivity | reflexivity | reflexivity
     | exact Hns].
Defined.

Lemma on_size_moves_widget_witness :
  invariant fresh_label /\
  exists s',
    on_size fresh_label = Ok s' /\
    num_eq (pos_x s') (Float 1) /\ num_eq (pos_y s') (Float 1) /\
    origin_in_sync s' /\ drawn s'.
Proof.
  split; [exact fresh_label_invariant|].
  destruct (on_size_moves_widget fresh_label fresh_label_invariant)
    as (s' & Hrun & Hx & Hy & Ho & _ & _ & _ & Hd).
  exists s'. split; [exact Hrun|]. repeat (split; [assumption|]). exact Hd.
Defined.

Lemma on_pos_idempotent_witness :
  constructed fresh_label /\
  exists s', on_pos fresh_label = Ok s' /\ on_pos s' = Ok s'.
Proof.
  split; [exact fresh_label_is_constructed|].
  exact (on_pos_idempotent fresh_label fresh_label_is_constructed).
Defined.

Lemma on_size_draws_outline_witness :
  invariant fresh_label /\ width_not_absorbed fresh_label /\
  exists s' l',
    on_size fresh_label = Ok s' /\ drawn s' /\ origin_in_sync s' /\
    border_line s' = Some l' /\ Line.rectangle l' = outline s'.
Proof.
  assert (Hna : width_not_absorbed fresh_label)
    by (repeat split; reflexivity).
  split; [exact fresh_label_invariant|]. split; [exact Hna|].
  apply (on_size_draws_outline fresh_label fresh_label_invariant Hna).
Defined.

Lemma on_border_width_reentry_bounded_witness :
  on_border_width 1 (with_border_width (Int 30) demo_label)
  = Err RecursionError /\
  exists s',
    forall fuel,
      on_border_width (S (S fuel)) (with_border_width (Int 30) demo_label)
      = Ok s'.
Proof.
  split; [vm_compute; reflexivity|].
  apply (on_border_width_reentry_bounded
           (with_border_width (Int 30) demo_label)).
  exact demo_label_is_constructed.
Defined.

Lemma origin_stays_in_sync_witness :
  origin_in_sync demo_label /\
  exists s',
    dispatch 2 (SetBorders (Int 5, "dashed", red)) demo_label = Ok s' /\
    origin_in_sync s'.
Proof.
  split; [exact demo_label_in_sync|].
  eexists. split; [vm_compute; reflexivity|].
  eapply (origin_stays_in_sync 0 (SetBorders (Int 5, "dashed", red))
            demo_label);
    [exact demo_label_is_constructed | exact demo_label_in_sync
     | vm_compute; reflexivity].
Defined.

Lemma drawing_never_restyled_witness :
  settled demo_label /\
  exists s',
    dispatch 2 (SetBorders (Int 5, "dashed", red)) demo_label = Ok s' /\
    border_style s' = Some "dashed" /\ border_color s' = red /\
    same_drawing demo_label s'.
Proof.
  split; [exact demo_label_settled|].
  eexists. split; [vm_compute; reflexivity|].
  split; [reflexivity|]. split; [reflexivity|].
  eapply (drawing_never_restyled 2 (SetBorders (Int 5, "dashed", red))
            demo_label);
    [exact demo_label_settled | vm_compute; reflexivity].
Defined.

Lemma constructor_width_raises_witness :
  __init__ 2 (Int 0) (Int 0) (Int 100) (Int 100)
    (mkKwargs (Some (Int 5)) None None)
  = Err (AttributeError "cur_dash_style").
Proof.
  apply (constructor_width_raises 1 (Int 0) (Int 0) (Int 100) (Int 100)
           (Int 5) None None); reflexivity.
Defined.

Lemma borders_with_known_style_witness :
  constructed fresh_label /\
  exists s',
    set_borders 2 (Int 50, "dotted", red) fresh_label = Ok s' /\
    borders s' = Some (Int 50, "dotted", red) /\
    border_style s' = Some "dotted" /\
    nums_eqb (border_color s') red = true /\
    cur_dash_style s' = Some (mkDash 1 1) /\
    origin_in_sync s' /\
    (num_eq (border_width s') (Int 50)
     \/ border_width s' = max_width fresh_label).
Proof.
  split; [exact fresh_label_is_constructed|].
  apply (borders_with_known_style 0 fresh_label (Int 50) "dotted" red
           (mkDash 1 1));
    [exact fresh_label_is_constructed | vm_compute; reflexivity
     | reflexivity].
Defined.

Lemma dash_parameters_match_style_witness :
  exists s,
    run 2 [OnSize; SetBorders (Int 5, "dashed", red)] fresh_label = Ok s /\
    style_consistent s.
Proof.
  eexists. split; [vm_compute; reflexivity|].
  eapply (dash_parameters_match_style 2 0 (Int 0) (Int 0) (Int 100) (Int 100)
            no_kwargs [OnSize; SetBorders (Int 5, "dashed", red)]
            fresh_label);
    vm_compute; reflexivity.
Defined.

Lemma first_layout_attributes_witness :
  undrawn fresh_label /\
  exists s',
    on_size fresh_label = Ok s' /\
    drawn_with (Float 1) white (mkDash 1 0) s'.
Proof.
  assert (Hu : undrawn fresh_label) by (repeat split).
  split; [exact Hu|].
  apply (first_layout_attributes fresh_label (mkDash 1 0) Hu). reflexivity.
Defined.

